(** * ImageTrackerLib: a shallow embedding of [src/ImageTrackerLib.h]

    The header declares four classes.  The member functions that are defined
    inline ([Tracker::isTracking], [Tracker::getModelViewMatrix],
    [Tracker::reset], the setters and getters) are transcribed from the
    source.  The members that are only declared there are modelled from the
    prose specification and are marked as such.

    OpenCV's [cv::Mat] is a reference-counted header over a shared element
    buffer, so matrices are modelled as headers pointing into an explicit
    store of buffers; copies of a header alias the same buffer. *)

From Stdlib Require Import ZArith List Bool String Lia.
From Stdlib Require Import Floats.SpecFloat.
From stdpp Require Import base list strings sorting.

Open Scope Z_scope.

(** ** OpenCV value types and the matrix store *)

Module Cv.

(** IEEE-754 numbers as the specification floats of the standard library;
    [float] elements are binary32 (24-bit significand, [emax = 128]). *)
Abbreviation float := spec_float (only parsing).
Definition prec32 : Z := 24.
Definition emax32 : Z := 128.
Definition f0 : float := S754_zero false.
Definition f1 : float := SFone prec32 emax32.

Record Point2f := mkPoint2f { px : float; py : float }.
Record Point3f := mkPoint3f { p3x : float; p3y : float; p3z : float }.

Record KeyPoint := mkKeyPoint {
  pt : Point2f;
  size : float;
  angle : float;
  response : float;
  octave : Z;
  class_id : Z
}.

Record DMatch := mkDMatch {
  queryIdx : Z;
  trainIdx : Z;
  imgIdx : Z;
  distance : float
}.

(** An element buffer; every element is represented by the number it holds. *)
Abbreviation buffer := (list spec_float) (only parsing).

(** The store of element buffers.  An address is an index into the list;
    buffers are allocated at the end and never reclaimed, so an address is
    never reused. *)
Abbreviation store := (list (list spec_float)) (only parsing).

(** A matrix header: [data = None] is the null data pointer. *)
Record Mat := mkMat {
  rows : Z;
  cols : Z;
  data : option nat
}.

(** A matrix as a value: what a header denotes in a given store. *)
Record matrix := mkMatrix {
  m_rows : Z;
  m_cols : Z;
  m_elems : list spec_float
}.

(** [Mat::Mat()] *)
Definition Mat_new : Mat := {| rows := 0; cols := 0; data := None |}.

(** [Mat::total()] *)
Definition total (m : Mat) : Z := rows m * cols m.

(** [Mat::empty()]: [data == 0 || total() == 0] *)
Definition empty (m : Mat) : bool :=
  match data m with
  | None => true
  | Some _ => total m =? 0
  end.

(** [Mat::release()] as in OpenCV 2.4: the header gives up its reference
    ([data = 0]) and its row count, and keeps its column count.  The buffer
    is freed with its last reference; the store does not follow reference
    counts and keeps every buffer. *)
Definition release (m : Mat) : Mat :=
  {| rows := 0; cols := cols m; data := None |}.

Definition buffer_of (st : store) (m : Mat) : buffer :=
  match data m with
  | Some a => default [] (st !! a)
  | None => []
  end.

Definition load (st : store) (m : Mat) : matrix :=
  {| m_rows := rows m; m_cols := cols m; m_elems := buffer_of st m |}.

(** Allocation of a fresh buffer holding [b]. *)
Definition alloc (r c : Z) (b : buffer) (st : store) : Mat * store :=
  ({| rows := r; cols := c; data := Some (length st) |}, st ++ [b]).

Definition store_value (v : matrix) (st : store) : Mat * store :=
  alloc (m_rows v) (m_cols v) (m_elems v) st.

(** [Mat::create(rows, cols, type)]: keeps the buffer when the header already
    has the requested shape, allocates a new one otherwise.  The new buffer
    is uninitialised in C++; every caller below overwrites it at once. *)
Definition create (r c : Z) (m : Mat) (st : store) : Mat * store :=
  match data m with
  | Some _ =>
      if (rows m =? r) && (cols m =? c) then (m, st)
      else alloc r c (repeat f0 (Z.to_nat (r * c))) st
  | None => alloc r c (repeat f0 (Z.to_nat (r * c))) st
  end.

Definition write_buffer (m : Mat) (b : buffer) (st : store) : store :=
  match data m with
  | Some a => <[a := b]> st
  | None => st
  end.

(** [src.copyTo(dst)]: an empty source releases the destination; otherwise
    the destination is created with the source's shape and the elements are
    copied. *)
Definition copyTo (src dst : Mat) (st : store) : Mat * store :=
  if empty src then (release dst, st)
  else
    let '(dst', st') := create (rows src) (cols src) dst st in
    (dst', write_buffer dst' (buffer_of st src) st').

Definition eye_elems (r c : Z) : buffer :=
  flat_map
    (fun i => map (fun j => if Nat.eqb i j then f1 else f0)
                  (seq 0 (Z.to_nat c)))
    (seq 0 (Z.to_nat r)).

(** [Mat_<float>::eye(rows, cols)] converted to a matrix: a new buffer. *)
Definition eye (r c : Z) (st : store) : Mat * store :=
  alloc r c (eye_elems r c) st.

Definition elem_index (m : Mat) (i j : Z) : option nat :=
  if (0 <=? i) && (i <? rows m) && (0 <=? j) && (j <? cols m)
  then Some (Z.to_nat (i * cols m + j))
  else None.

(** [m(i,j) = x].  An access outside the matrix is undefined in C++; the
    model leaves the store as it is. *)
Definition put (m : Mat) (i j : Z) (x : float) (st : store) : store :=
  match data m, elem_index m i j with
  | Some a, Some k => <[a := <[k := x]> (default [] (st !! a))]> st
  | _, _ => st
  end.

(** [m(i,j)] *)
Definition get (m : Mat) (i j : Z) (st : store) : option float :=
  match elem_index m i j with
  | Some k => buffer_of st m !! k
  | None => None
  end.

(** The [float] nearest to an [int]. *)
Definition float_of_Z (z : Z) : float := binary_normalize prec32 emax32 z 0 false.

(** [v[i]] for an [int] index; [None] outside the vector, where the C++
    access is undefined. *)
Definition at_index {A : Type} (l : list A) (i : Z) : option A :=
  if 0 <=? i then l !! Z.to_nat i else None.

(** Keeps the elements of [l] whose status entry is set, in order; an
    element without a status entry is dropped. *)
Fixpoint keepByStatus {A : Type} (status : list bool) (l : list A) : list A :=
  match status, l with
  | s :: status', x :: l' =>
      if s then x :: keepByStatus status' l' else keepByStatus status' l'
  | _, _ => []
  end.

(** Whether a position lies inside an image of the given shape. *)
Definition inBounds (img : matrix) (p : Point2f) : bool :=
  SFleb f0 (px p) && SFltb (px p) (float_of_Z (m_cols img)) &&
  SFleb f0 (py p) && SFltb (py p) (float_of_Z (m_rows img)).

(** The value of an absent optional matrix argument ([const Mat& = Mat()]). *)
Definition no_matrix : matrix := {| m_rows := 0; m_cols := 0; m_elems := [] |}.

End Cv.

(** ** External collaborators

    The feature detector, descriptor extractor and descriptor matcher are
    abstract interfaces in the source ([Ptr<FeatureDetector>] and the like),
    and the geometric and learning kernels are OpenCV routines.  Each is a
    function of the matrix values it reads. *)

Module Backend.
Import Cv.

Class FeatureBackend := {
  (** [FeatureDetector::detect(image, keypoints, mask)] *)
  detect : matrix -> matrix -> list KeyPoint;
  (** [DescriptorExtractor::compute(image, keypoints, descriptors)] *)
  compute : matrix -> list KeyPoint -> matrix;
  (** [DescriptorMatcher]: the unambiguous matches of the query descriptors
      against the trained descriptor matrices *)
  matchDescriptors : matrix -> list matrix -> list DMatch
}.

Class VisionKernels := {
  (** [cvtColor(frame, gray, CV_BGR2GRAY)] *)
  cvtColor : matrix -> matrix;
  (** [findHomography(src, dst, RANSAC)] and its inlier mask *)
  findHomography : list Point2f -> list Point2f -> matrix;
  homographyInliers : matrix -> list Point2f -> list Point2f -> list bool;
  (** [calcOpticalFlowPyrLK(prev, next, pts)]: the new positions, and for
      each point whether it was followed with sufficient confidence *)
  calcOpticalFlowPyrLK :
    matrix -> matrix -> list Point2f -> list Point2f * list bool;
  (** [solvePnP(object, image, camMat, rvec, tvec)]: [None] when the solver
      does not converge *)
  solvePnP :
    list Point3f -> list Point2f -> matrix -> matrix -> matrix ->
    option (matrix * matrix);
  (** the model-view matrix of a pose under the axis flip [cvToGl] *)
  modelViewOf : matrix -> matrix -> matrix -> matrix;
  (** the fixed axis-flip transform *)
  axisFlip : matrix
}.

Class BowKernels := {
  (** [BOWKMeansTrainer::cluster()] over the pooled descriptors *)
  kmeansCluster : list matrix -> matrix;
  (** the normalised histogram of nearest vocabulary words *)
  bowHistogram : matrix -> matrix -> list spec_float;
  (** [PCA::project] with basis (eigenvectors, eigenvalues, mean) *)
  pcaProject : matrix -> matrix -> matrix -> list spec_float -> list spec_float;
  (** the distance between two encodings *)
  encodingDistance : list spec_float -> list spec_float -> spec_float
}.

End Backend.

(** ** class [Tracker] *)

Module Tracker.
Import Cv Backend.

(** The data members of [class Tracker], in the order of the source.  The
    [detector] and [extractor] pointers refer to stateless capabilities and
    are bound by the [FeatureBackend] class; of the [matcher] the
    record keeps its trained state, the descriptor matrices added to it. *)
Record Tracker := mkTracker {
  matcher : list Mat;
  marker_frame : Mat;
  marker_desc : Mat;
  marker_kp : list KeyPoint;
  obj_bb : list Point2f;
  bootstrap : bool;
  camMat : Mat;
  trackedFeatures : list KeyPoint;
  trackedFeaturesOnMarker : list Z;
  prevGray : Mat;
  toProcessFrame : Mat;
  raux : Mat;
  taux : Mat;
  homography : Mat;
  cvToGl : Mat;
  tracking : bool;
  debug : bool;
  newFrame : bool;
  outputFrame : Mat;
  hmask : Mat;
  modelViewMatrix : Mat
}.

Definition set_matcher (v : list Mat) (t : Tracker) : Tracker :=
  mkTracker v (marker_frame t) (marker_desc t) (marker_kp t) (obj_bb t)
    (bootstrap t) (camMat t) (trackedFeatures t) (trackedFeaturesOnMarker t)
    (prevGray t) (toProcessFrame t) (raux t) (taux t) (homography t)
    (cvToGl t) (tracking t) (debug t) (newFrame t) (outputFrame t) (hmask t)
    (modelViewMatrix t).

Definition set_marker_frame (v : Mat) (t : Tracker) : Tracker :=
  mkTracker (matcher t) v (marker_desc t) (marker_kp t) (obj_bb t)
    (bootstrap t) (camMat t) (trackedFeatures t) (trackedFeaturesOnMarker t)
    (prevGray t) (toProcessFrame t) (raux t) (taux t) (homography t)
    (cvToGl t) (tracking t) (debug t) (newFrame t) (outputFrame t) (hmask t)
    (modelViewMatrix t).

Definition set_marker_desc (v : Mat) (t : Tracker) : Tracker :=
  mkTracker (matcher t) (marker_frame t) v (marker_kp t) (obj_bb t)
    (bootstrap t) (camMat t) (trackedFeatures t) (trackedFeaturesOnMarker t)
    (prevGray t) (toProcessFrame t) (raux t) (taux t) (homography t)
    (cvToGl t) (tracking t) (debug t) (newFrame t) (outputFrame t) (hmask t)
    (modelViewMatrix t).

Definition set_marker_kp (v : list KeyPoint) (t : Tracker) : Tracker :=
  mkTracker (matcher t) (marker_frame t) (marker_desc t) v (obj_bb t)
    (bootstrap t) (camMat t) (trackedFeatures t) (trackedFeaturesOnMarker t)
    (prevGray t) (toProcessFrame t) (raux t) (taux t) (homography t)
    (cvToGl t) (tracking t) (debug t) (newFrame t) (outputFrame t) (hmask t)
    (modelViewMatrix t).

Definition set_obj_bb (v : list Point2f) (t : Tracker) : Tracker :=
  mkTracker (matcher t) (marker_frame t) (marker_desc t) (marker_kp t) v
    (bootstrap t) (camMat t) (trackedFeatures t) (trackedFeaturesOnMarker t)
    (prevGray t) (toProcessFrame t) (raux t) (taux t) (homography t)
    (cvToGl t) (tracking t) (debug t) (newFrame t) (outputFrame t) (hmask t)
    (modelViewMatrix t).

Definition set_bootstrap (v : bool) (t : Tracker) : Tracker :=
  mkTracker (matcher t) (marker_frame t) (marker_desc t) (marker_kp t)
    (obj_bb t) v (camMat t) (trackedFeatures t) (trackedFeaturesOnMarker t)
    (prevGray t) (toProcessFrame t) (raux t) (taux t) (homography t)
    (cvToGl t) (tracking t) (debug t) (newFrame t) (outputFrame t) (hmask t)
    (modelViewMatrix t).

Definition set_trackedFeatures (v : list KeyPoint) (t : Tracker) : Tracker :=
  mkTracker (matcher t) (marker_frame t) (marker_desc t) (marker_kp t)
    (obj_bb t) (bootstrap t) (camMat t) v (trackedFeaturesOnMarker t)
    (prevGray t) (toProcessFrame t) (raux t) (taux t) (homography t)
    (cvToGl t) (tracking t) (debug t) (newFrame t) (outputFrame t) (hmask t)
    (modelViewMatrix t).

Definition set_trackedFeaturesOnMarker (v : list Z) (t : Tracker) : Tracker :=
  mkTracker (matcher t) (marker_frame t) (marker_desc t) (marker_kp t)
    (obj_bb t) (bootstrap t) (camMat t) (trackedFeatures t) v (prevGray t)
    (toProcessFrame t) (raux t) (taux t) (homography t) (cvToGl t)
    (tracking t) (debug t) (newFrame t) (outputFrame t) (hmask t)
    (modelViewMatrix t).

Definition set_prevGray (v : Mat) (t : Tracker) : Tracker :=
  mkTracker (matcher t) (marker_frame t) (marker_desc t) (marker_kp t)
    (obj_bb t) (bootstrap t) (camMat t) (trackedFeatures t)
    (trackedFeaturesOnMarker t) v (toProcessFrame t) (raux t) (taux t)
    (homography t) (cvToGl t) (tracking t) (debug t) (newFrame t)
    (outputFrame t) (hmask t) (modelViewMatrix t).

Definition set_toProcessFrame (v : Mat) (t : Tracker) : Tracker :=
  mkTracker (matcher t) (marker_frame t) (marker_desc t) (marker_kp t)
    (obj_bb t) (bootstrap t) (camMat t) (trackedFeatures t)
    (trackedFeaturesOnMarker t) (prevGray t) v (raux t) (taux t)
    (homography t) (cvToGl t) (tracking t) (debug t) (newFrame t)
    (outputFrame t) (hmask t) (modelViewMatrix t).

Definition set_raux (v : Mat) (t : Tracker) : Tracker :=
  mkTracker (matcher t) (marker_frame t) (marker_desc t) (marker_kp t)
    (obj_bb t) (bootstrap t) (camMat t) (trackedFeatures t)
    (trackedFeaturesOnMarker t) (prevGray t) (toProcessFrame t) v (taux t)
    (homography t) (cvToGl t) (tracking t) (debug t) (newFrame t)
    (outputFrame t) (hmask t) (modelViewMatrix t).

Definition set_taux (v : Mat) (t : Tracker) : Tracker :=
  mkTracker (matcher t) (marker_frame t) (marker_desc t) (marker_kp t)
    (obj_bb t) (bootstrap t) (camMat t) (trackedFeatures t)
    (trackedFeaturesOnMarker t) (prevGray t) (toProcessFrame t) (raux t) v
    (homography t) (cvToGl t) (tracking t) (debug t) (newFrame t)
    (outputFrame t) (hmask t) (modelViewMatrix t).

Definition set_homography (v : Mat) (t : Tracker) : Tracker :=
  mkTracker (matcher t) (marker_frame t) (marker_desc t) (marker_kp t)
    (obj_bb t) (bootstrap t) (camMat t) (trackedFeatures t)
    (trackedFeaturesOnMarker t) (prevGray t) (toProcessFrame t) (raux t)
    (taux t) v (cvToGl t) (tracking t) (debug t) (newFrame t)
    (outputFrame t) (hmask t) (modelViewMatrix t).

Definition set_tracking (v : bool) (t : Tracker) : Tracker :=
  mkTracker (matcher t) (marker_frame t) (marker_desc t) (marker_kp t)
    (obj_bb t) (bootstrap t) (camMat t) (trackedFeatures t)
    (trackedFeaturesOnMarker t) (prevGray t) (toProcessFrame t) (raux t)
    (taux t) (homography t) (cvToGl t) v (debug t) (newFrame t)
    (outputFrame t) (hmask t) (modelViewMatrix t).

Definition set_debug (v : bool) (t : Tracker) : Tracker :=
  mkTracker (matcher t) (marker_frame t) (marker_desc t) (marker_kp t)
    (obj_bb t) (bootstrap t) (camMat t) (trackedFeatures t)
    (trackedFeaturesOnMarker t) (prevGray t) (toProcessFrame t) (raux t)
    (taux t) (homography t) (cvToGl t) (tracking t) v (newFrame t)
    (outputFrame t) (hmask t) (modelViewMatrix t).

Definition set_newFrame (v : bool) (t : Tracker) : Tracker :=
  mkTracker (matcher t) (marker_frame t) (marker_desc t) (marker_kp t)
    (obj_bb t) (bootstrap t) (camMat t) (trackedFeatures t)
    (trackedFeaturesOnMarker t) (prevGray t) (toProcessFrame t) (raux t)
    (taux t) (homography t) (cvToGl t) (tracking t) (debug t) v
    (outputFrame t) (hmask t) (modelViewMatrix t).

Definition set_modelViewMatrix (v : Mat) (t : Tracker) : Tracker :=
  mkTracker (matcher t) (marker_frame t) (marker_desc t) (marker_kp t)
    (obj_bb t) (bootstrap t) (camMat t) (trackedFeatures t)
    (trackedFeaturesOnMarker t) (prevGray t) (toProcessFrame t) (raux t)
    (taux t) (homography t) (cvToGl t) (tracking t) (debug t) (newFrame t)
    (outputFrame t) (hmask t) v.

(** [ofThread::lock()] and [ofThread::unlock()] acquire and release the
    thread's mutex.  In the sequential embedding no other thread holds it, and
    neither call changes a data member. *)
Definition lock (t : Tracker) : Tracker := t.
Definition unlock (t : Tracker) : Tracker := t.

(** [const vector<KeyPoint>& getTrackedFeatures() const] *)
Definition getTrackedFeatures (t : Tracker) : list KeyPoint := trackedFeatures t.

(** [bool isTracking() const { return tracking || bootstrap; }] *)
Definition isTracking (t : Tracker) : bool := tracking t || bootstrap t.

(** [void setDebug(bool b) { debug = b; }] *)
Definition setDebug (b : bool) (t : Tracker) : Tracker := set_debug b t.

(** [void setToProcessFrame(const Mat& f)]: the header assignment shares the
    caller's buffer. *)
Definition setToProcessFrame (f : Mat) (t : Tracker) : Tracker :=
  let t := lock t in
  let t := set_toProcessFrame f t in
  let t := unlock t in
  set_newFrame true t.

(** [Mat_<float> getModelViewMatrix()] *)
Definition getModelViewMatrix (t : Tracker) (st : store) : Mat * Tracker * store :=
  if empty (modelViewMatrix t) then
    let '(m, st) := eye 4 4 st in (m, t, st)
  else
    let tmp := Mat_new in
    let t := lock t in
    let '(tmp, st) := copyTo (modelViewMatrix t) tmp st in
    let t := unlock t in
    (tmp, t, st).

(** [void reset()] *)
Definition reset (t : Tracker) : Tracker :=
  let t := set_trackedFeatures [] t in
  let t := set_trackedFeaturesOnMarker [] t in
  let t := set_tracking true t in
  let t := set_bootstrap true t in
  let t := set_raux (release (raux t)) t in
  let t := set_taux (release (taux t)) t in
  t.

(** Modelled from the spec: the three states of its state machine, which
    the source keeps in the two flags.  [reset] sets both flags and the spec
    calls the result Bootstrapping, so [bootstrap] decides whenever it is
    set. *)
Inductive TrackingState := Idle | Bootstrapping | Tracking.

Definition state_of (t : Tracker) : TrackingState :=
  if bootstrap t then Bootstrapping
  else if tracking t then Tracking
  else Idle.

(** *** The members declared in the header and defined elsewhere

    The header declares these members and their bodies are in no source
    file at hand.  Every definition of this section is modelled from the
    spec; the unnamed helpers are steps of the member that follows them. *)

Section Members.
Context `{FeatureBackend} `{VisionKernels}.

(** The thresholds the specification leaves to the implementation: the
    minimum number of marker keypoints, of homography inliers and of
    features for tracking to continue. *)
Variables (minMarkerKeypoints minInliers minTrackedFeatures : nat).

(** Modelled from the spec: the constructor [Tracker(cam, detector,
    extractor)], whose body is not in the header.  A new tracker is Idle,
    holds the intrinsics and the axis flip, and nothing else. *)
Definition Tracker_new (cam : Mat) (st : store) : Tracker * store :=
  let '(gl, st) := store_value axisFlip st in
  ({| matcher := []; marker_frame := Mat_new; marker_desc := Mat_new;
      marker_kp := []; obj_bb := []; bootstrap := false; camMat := cam;
      trackedFeatures := []; trackedFeaturesOnMarker := [];
      prevGray := Mat_new; toProcessFrame := Mat_new; raux := Mat_new;
      taux := Mat_new; homography := Mat_new; cvToGl := gl;
      tracking := false; debug := false; newFrame := false;
      outputFrame := Mat_new; hmask := Mat_new;
      modelViewMatrix := Mat_new |}, st).

(** Modelled from the spec: the return codes of [setMarker]. *)
Definition SETMARKER_OK : Z := 0.
Definition SETMARKER_INSUFFICIENT_FEATURES : Z := -1.

(** The bounding quadrilateral of an image, corner by corner. *)
Definition imageCorners (img : matrix) : list Point2f :=
  let w := float_of_Z (m_cols img) in
  let h := float_of_Z (m_rows img) in
  [mkPoint2f f0 f0; mkPoint2f w f0; mkPoint2f w h; mkPoint2f f0 h].

(** Modelled from the spec: [int setMarker(const Mat& marker)], whose body
    is not in the header.  Detects the marker's keypoints; with fewer than
    the minimum it returns the error code and touches nothing; otherwise it
    stores the frame, keypoints and descriptors, trains the matcher with the
    descriptors, computes the bounding quadrilateral and enters
    Bootstrapping. *)
Definition setMarker (marker : Mat) (t : Tracker) (st : store)
  : Z * Tracker * store :=
  let img := load st marker in
  let kp := detect img no_matrix in
  if (length kp <? minMarkerKeypoints)%nat then
    (SETMARKER_INSUFFICIENT_FEATURES, t, st)
  else
    let '(desc, st) := store_value (compute img kp) st in
    let t := set_marker_frame marker t in
    let t := set_marker_kp kp t in
    let t := set_marker_desc desc t in
    let t := set_matcher [desc] t in
    let t := set_obj_bb (imageCorners img) t in
    let t := set_bootstrap true t in
    (SETMARKER_OK, t, st).

(** A match together with the frame keypoint and the marker keypoint it
    names; a match naming a keypoint that does not exist is skipped. *)
Definition resolveMatch (kp mkp : list KeyPoint) (m : DMatch)
  : option (DMatch * KeyPoint * KeyPoint) :=
  match at_index kp (queryIdx m), at_index mkp (trainIdx m) with
  | Some k, Some mk => Some (m, k, mk)
  | _, _ => None
  end.

(** Modelled from the spec: [void bootstrapTracking(frame, useHomography,
    mask)], whose body is not in the header.  Matches the frame against the
    marker, takes the given homography or estimates one, and keeps the
    matches consistent with it.  With enough inliers the inliers become the
    tracked features, each linked to its marker keypoint, and the tracker
    enters Tracking; otherwise nothing changes.  On an empty frame the call
    fails and leaves the tracker as it was. *)
Definition bootstrapTracking (frame useHomography mask : Mat)
    (t : Tracker) (st : store) : Tracker * store :=
  if empty frame then (t, st) else
  let img := load st frame in
  let kp := detect img (load st mask) in
  let desc := compute img kp in
  let matches :=
    omap (resolveMatch kp (marker_kp t))
         (matchDescriptors desc (map (load st) (matcher t))) in
  let src := map (fun x => pt (snd x)) matches in
  let dst := map (fun x => pt (snd (fst x))) matches in
  let Hm := if empty useHomography then findHomography src dst
            else load st useHomography in
  let good := keepByStatus (homographyInliers Hm src dst) matches in
  if (length good <? minInliers)%nat then (t, st)
  else
    let t := set_trackedFeatures (map (fun x => snd (fst x)) good) t in
    let t := set_trackedFeaturesOnMarker
               (map (fun x => trainIdx (fst (fst x))) good) t in
    let '(hm, st) := store_value Hm st in
    let t := set_homography hm t in
    let '(g, st) := store_value (cvtColor img) st in
    let t := set_prevGray g t in
    let t := set_bootstrap false t in
    let t := set_tracking true t in
    (t, st).

Definition moveTo (k : KeyPoint) (p : Point2f) : KeyPoint :=
  mkKeyPoint p (size k) (angle k) (response k) (octave k) (class_id k).

(** The features that survive a frame: followed with confidence and still
    inside the image. *)
Definition flowStatus (gray : matrix) (next : list Point2f)
    (status : list bool) : list bool :=
  zip_with (fun (s : bool) p => s && inBounds gray p) status next.

(** Modelled from the spec: the optical-flow half of [track]: every tracked
    feature is advanced from the previous frame into this one, and a feature
    that is lost or leaves the image is dropped together with the link entry
    at its index. *)
Definition trackFlow (frame : Mat) (t : Tracker) (st : store)
  : Tracker * store :=
  let gray := cvtColor (load st frame) in
  let '(next, status) :=
    calcOpticalFlowPyrLK (load st (prevGray t)) gray
                         (map pt (trackedFeatures t)) in
  let keep := flowStatus gray next status in
  let moved := zip_with moveTo (trackedFeatures t) next in
  let links := trackedFeaturesOnMarker t in
  let t := set_trackedFeatures (keepByStatus keep moved) t in
  let t := set_trackedFeaturesOnMarker (keepByStatus keep links) t in
  let '(g, st) := store_value gray st in
  let t := set_prevGray g t in
  (t, st).

(** Modelled from the spec: [void track(const Mat& frame)], whose body is
    not in the header: the optical-flow step, then a [reset] when fewer than
    the minimum number of features are left.  On an empty frame the call
    fails and leaves the tracker as it was. *)
Definition track (frame : Mat) (t : Tracker) (st : store) : Tracker * store :=
  if empty frame then (t, st) else
  let '(t, st) := trackFlow frame t st in
  if (length (trackedFeatures t) <? minTrackedFeatures)%nat
  then (reset t, st)
  else (t, st).

(** Modelled from the spec: [bool canCalcModelViewMatrix() const], whose
    body is not in the header: the pose solver needs four correspondences. *)
Definition canCalcModelViewMatrix (t : Tracker) : bool :=
  (4 <=? length (trackedFeatures t))%nat.

(** The marker-plane point ([z = 0]) a link entry names. *)
Definition markerPoint (t : Tracker) (i : Z) : Point3f :=
  match at_index (marker_kp t) i with
  | Some k => mkPoint3f (px (pt k)) (py (pt k)) f0
  | None => mkPoint3f f0 f0 f0
  end.

(** Modelled from the spec: [calcModelViewMatrix], whose body is not in the
    header, applied to the tracker's own [modelViewMatrix] and [camMat] as
    [process] applies it.  With fewer than four correspondences, or when the
    solver fails, the matrix is left as it is. *)
Definition calcModelViewMatrix (t : Tracker) (st : store) : Tracker * store :=
  if negb (canCalcModelViewMatrix t) then (t, st)
  else
    match solvePnP (map (markerPoint t) (trackedFeaturesOnMarker t))
                   (map pt (trackedFeatures t))
                   (load st (camMat t))
                   (load st (raux t)) (load st (taux t)) with
    | None => (t, st)
    | Some (r, tv) =>
        let '(rh, st) := store_value r st in
        let '(th, st) := store_value tv st in
        let '(mv, st) :=
          store_value (modelViewOf (load st (cvToGl t)) r tv) st in
        let t := lock t in
        let t := set_raux rh t in
        let t := set_taux th t in
        let t := set_modelViewMatrix mv t in
        let t := unlock t in
        (t, st)
    end.

(** Modelled from the spec: [Mat process(frame, mask)], whose body is not in
    the header: bootstrap or track according to the state, then compute the
    pose when there are enough correspondences.  On an empty frame the call
    fails and leaves the tracker as it was. *)
Definition process (frame mask : Mat) (t : Tracker) (st : store)
  : Mat * Tracker * store :=
  if empty frame then (outputFrame t, t, st) else
  let '(t, st) :=
    match state_of t with
    | Bootstrapping => bootstrapTracking frame Mat_new mask t st
    | Tracking => track frame t st
    | Idle => (t, st)
    end in
  let '(t, st) :=
    if canCalcModelViewMatrix t then calcModelViewMatrix t st else (t, st) in
  (outputFrame t, t, st).

(** The histories of a tracker: one call of a client on it, or an
    allocation of the client's own (a new frame, say). *)
Inductive call :=
| CallSetMarker (marker : Mat)
| CallBootstrapTracking (frame useHomography mask : Mat)
| CallTrack (frame : Mat)
| CallProcess (frame mask : Mat)
| CallCalcModelViewMatrix
| CallGetModelViewMatrix
| CallSetDebug (b : bool)
| CallSetToProcessFrame (f : Mat)
| CallReset
| ClientAlloc (v : matrix).

Definition exec (w : Tracker * store) (c : call) : Tracker * store :=
  let '(t, st) := w in
  match c with
  | CallSetMarker marker =>
      let '(_, t, st) := setMarker marker t st in (t, st)
  | CallBootstrapTracking frame h mask => bootstrapTracking frame h mask t st
  | CallTrack frame => track frame t st
  | CallProcess frame mask =>
      let '(_, t, st) := process frame mask t st in (t, st)
  | CallCalcModelViewMatrix => calcModelViewMatrix t st
  | CallGetModelViewMatrix =>
      let '(_, t, st) := getModelViewMatrix t st in (t, st)
  | CallSetDebug b => (setDebug b t, st)
  | CallSetToProcessFrame f => (setToProcessFrame f t, st)
  | CallReset => (reset t, st)
  | ClientAlloc v => (t, snd (store_value v st))
  end.

Definition run (cs : list call) (w : Tracker * store) : Tracker * store :=
  fold_left exec cs w.

End Members.

End Tracker.

(** ** class [MarkerDetector] *)

Module MarkerDetector.
Import Cv Backend.

(** [cv::PCA]: the basis and the mean it was fitted with. *)
Record PCA := mkPCA {
  eigenvectors : Mat;
  eigenvalues : Mat;
  mean : Mat
}.

(** The data members of [class MarkerDetector].  The detector, extractor
    and matcher are bound by [FeatureBackend]; of the [bowtrainer] the record
    keeps the descriptor matrices pooled so far; the [bowextractor] is
    determined by the [vocabulary], and the [classifier] by the training
    matrix and its labels. *)
Record MarkerDetector := mkMarkerDetector {
  bowtrainer : list Mat;
  vocabulary : Mat;
  markers : list Mat;
  marker_files : list string;
  descriptorPCA : PCA;
  descriptorsBeforePCA : Mat;
  descriptorsAfterPCA : Mat;
  training : Mat;
  training_labels : list string;
  training_labelsUniq : list string
}.

Definition set_bowtrainer (v : list Mat) (d : MarkerDetector) : MarkerDetector :=
  mkMarkerDetector v (vocabulary d) (markers d) (marker_files d)
    (descriptorPCA d) (descriptorsBeforePCA d) (descriptorsAfterPCA d)
    (training d) (training_labels d) (training_labelsUniq d).

Definition set_vocabulary (v : Mat) (d : MarkerDetector) : MarkerDetector :=
  mkMarkerDetector (bowtrainer d) v (markers d) (marker_files d)
    (descriptorPCA d) (descriptorsBeforePCA d) (descriptorsAfterPCA d)
    (training d) (training_labels d) (training_labelsUniq d).

Definition set_markers (v : list Mat) (d : MarkerDetector) : MarkerDetector :=
  mkMarkerDetector (bowtrainer d) (vocabulary d) v (marker_files d)
    (descriptorPCA d) (descriptorsBeforePCA d) (descriptorsAfterPCA d)
    (training d) (training_labels d) (training_labelsUniq d).

Definition set_marker_files (v : list string) (d : MarkerDetector)
  : MarkerDetector :=
  mkMarkerDetector (bowtrainer d) (vocabulary d) (markers d) v
    (descriptorPCA d) (descriptorsBeforePCA d) (descriptorsAfterPCA d)
    (training d) (training_labels d) (training_labelsUniq d).

Definition set_descriptorPCA (v : PCA) (d : MarkerDetector) : MarkerDetector :=
  mkMarkerDetector (bowtrainer d) (vocabulary d) (markers d) (marker_files d)
    v (descriptorsBeforePCA d) (descriptorsAfterPCA d)
    (training d) (training_labels d) (training_labelsUniq d).

Definition set_training (v : Mat) (d : MarkerDetector) : MarkerDetector :=
  mkMarkerDetector (bowtrainer d) (vocabulary d) (markers d) (marker_files d)
    (descriptorPCA d) (descriptorsBeforePCA d) (descriptorsAfterPCA d)
    v (training_labels d) (training_labelsUniq d).

Definition set_training_labels (v : list string) (d : MarkerDetector)
  : MarkerDetector :=
  mkMarkerDetector (bowtrainer d) (vocabulary d) (markers d) (marker_files d)
    (descriptorPCA d) (descriptorsBeforePCA d) (descriptorsAfterPCA d)
    (training d) v (training_labelsUniq d).

Definition set_training_labelsUniq (v : list string) (d : MarkerDetector)
  : MarkerDetector :=
  mkMarkerDetector (bowtrainer d) (vocabulary d) (markers d) (marker_files d)
    (descriptorPCA d) (descriptorsBeforePCA d) (descriptorsAfterPCA d)
    (training d) (training_labels d) v.

(** [const Mat& getVocabulary() const] *)
Definition getVocabulary (d : MarkerDetector) : Mat := vocabulary d.
(** [const Mat& getTraining() const] *)
Definition getTraining (d : MarkerDetector) : Mat := training d.
(** [void setTraining(const Mat& training)] *)
Definition setTraining (m : Mat) (d : MarkerDetector) : MarkerDetector :=
  set_training m d.
(** [vector<string> getTrainingLabels() const] *)
Definition getTrainingLabels (d : MarkerDetector) : list string :=
  training_labels d.
(** [void setTrainingLabels(vector<string> trainingLabels)] *)
Definition setTrainingLabels (l : list string) (d : MarkerDetector)
  : MarkerDetector := set_training_labels l d.
(** [const PCA& getDescriptorPca() const] *)
Definition getDescriptorPca (d : MarkerDetector) : PCA := descriptorPCA d.
(** [void setDescriptorPca(const PCA& descriptorPca)] *)
Definition setDescriptorPca (p : PCA) (d : MarkerDetector) : MarkerDetector :=
  set_descriptorPCA p d.
(** [vector<string> getMarkerFiles() const] *)
Definition getMarkerFiles (d : MarkerDetector) : list string := marker_files d.
(** [void setMarkerFiles(vector<string> markerFiles)] *)
Definition setMarkerFiles (l : list string) (d : MarkerDetector)
  : MarkerDetector := set_marker_files l d.

(** *** The members declared in the header and defined elsewhere

    As for the tracker: every definition from here to the end of the module
    is modelled from the spec. *)

(** The rows of a matrix value. *)
Fixpoint chunks (n k : nat) (l : list spec_float) : list (list spec_float) :=
  match k with
  | O => []
  | S k' => take n l :: chunks n k' (drop n l)
  end.

Definition matrixRows (v : matrix) : list (list spec_float) :=
  chunks (Z.to_nat (m_cols v)) (Z.to_nat (m_rows v)) (m_elems v).

(** The number of votes a label gets. *)
Definition votes (lab : string) (l : list string) : nat :=
  length (filter (fun x => x = lab) l).

(** The better of two candidate labels: the newcomer only when it has
    strictly more votes. *)
Definition moreVotes (l : list string) (best c : string) : string :=
  if (votes best l <? votes c l)%nat then c else best.

(** The label with the most votes; among equals the one met first. *)
Definition majorityLabel (l : list string) : string :=
  match l with
  | [] => EmptyString
  | x :: r => fold_left (moreVotes l) r x
  end.

Definition is_nan (x : spec_float) : bool :=
  match x with S754_nan => true | _ => false end.

(** The order of distances: the IEEE comparison on numbers, and a distance
    that is not a number after every number. *)
Definition distLe (a b : spec_float) : bool :=
  match SFcompare a b with
  | Some Gt => false
  | Some _ => true
  | None => is_nan b
  end.

(** Insertion into a list sorted by ascending distance, after its equals. *)
Fixpoint insertByDistance (x : spec_float * string)
    (l : list (spec_float * string)) : list (spec_float * string) :=
  match l with
  | [] => [x]
  | y :: l' =>
      if distLe (fst y) (fst x) then y :: insertByDistance x l'
      else x :: y :: l'
  end.

Definition sortByDistance (l : list (spec_float * string))
  : list (spec_float * string) :=
  foldr insertByDistance [] l.

Section Members.
Context `{FeatureBackend} `{BowKernels}.

(** The number of neighbours that vote, and the distance beyond which the
    nearest neighbour is no match; the specification names neither. *)
Variable knnK : nat.
Variable rejectThreshold : spec_float.

(** Modelled from the spec: the label returned when no marker is
    recognised. *)
Definition NO_MARKER : string := EmptyString.

(** The training set: the rows of [training] with their labels. *)
Definition trainingSet (d : MarkerDetector) (st : store)
  : list (list spec_float * string) :=
  zip (matrixRows (load st (training d))) (training_labels d).

(** Modelled from the spec: [addMarker(marker, marker_file)], whose body is
    not in the header: registers the image under its label and pools its
    descriptors. *)
Definition addMarker (marker : Mat) (marker_file : string)
    (d : MarkerDetector) (st : store) : MarkerDetector * store :=
  let img := load st marker in
  let '(desc, st) := store_value (compute img (detect img no_matrix)) st in
  let d := set_markers (markers d ++ [marker]) d in
  let d := set_marker_files (marker_files d ++ [marker_file]) d in
  let d := set_bowtrainer (bowtrainer d ++ [desc]) d in
  (d, st).

(** Modelled from the spec: [cluster()], whose body is not in the header. *)
Definition cluster (d : MarkerDetector) (st : store) : MarkerDetector * store :=
  let '(v, st) :=
    store_value (kmeansCluster (map (load st) (bowtrainer d))) st in
  (set_vocabulary v d, st).

(** Modelled from the spec: [extractBOWdescriptor(img, imgDescriptor,
    mask)], whose body is not in the header; the histogram is returned
    instead of written to the out-parameter. *)
Definition extractBOWdescriptor (img mask : Mat) (d : MarkerDetector)
    (st : store) : list spec_float :=
  let i := load st img in
  bowHistogram (load st (vocabulary d))
               (compute i (detect i (load st mask))).

(** The encoding of an image: its histogram, projected through the PCA
    basis when there is one. *)
Definition project (p : PCA) (st : store) (h : list spec_float)
  : list spec_float :=
  if empty (eigenvectors p) then h
  else pcaProject (load st (eigenvectors p)) (load st (eigenvalues p))
                  (load st (mean p)) h.

Definition encode (img mask : Mat) (d : MarkerDetector) (st : store)
  : list spec_float :=
  project (descriptorPCA d) st (extractBOWdescriptor img mask d st).

(** Modelled from the spec: [addImageToTraining(img, label)], whose body is
    not in the header: the encoding is appended to the training matrix as a
    new row and the label to the labels. *)
Definition addImageToTraining (img : Mat) (label : string)
    (d : MarkerDetector) (st : store) : MarkerDetector * store :=
  let e := encode img Mat_new d st in
  let old := load st (training d) in
  let '(tr, st) :=
    alloc (m_rows old + 1) (Z.of_nat (length e)) (m_elems old ++ e) st in
  let d := set_training tr d in
  let d := set_training_labels (training_labels d ++ [label]) d in
  let d :=
    if bool_decide (label ∈ training_labelsUniq d) then d
    else set_training_labelsUniq (training_labelsUniq d ++ [label]) d in
  (d, st).

(** The training set by ascending distance from an encoding. *)
Definition neighbours (q : list spec_float)
    (ts : list (list spec_float * string)) : list (spec_float * string) :=
  sortByDistance (map (fun x => (encodingDistance q (fst x), snd x)) ts).

(** Modelled from the spec: [detectMarkerInImage(img, mask)], whose body is
    not in the header: no marker for an empty training set or when the
    distance of the nearest neighbour exceeds the rejection threshold (is
    not at most the threshold), the majority label of the [knnK] nearest
    neighbours otherwise. *)
Definition detectMarkerInImage (img mask : Mat) (d : MarkerDetector)
    (st : store) : string :=
  match neighbours (encode img mask d st) (trainingSet d st) with
  | [] => NO_MARKER
  | ((d0, _) :: _) as nn =>
      if distLe d0 rejectThreshold then majorityLabel (map snd (take knnK nn))
      else NO_MARKER
  end.

(** What the detector keeps on disk. *)
Record Files := mkFiles {
  f_vocabulary : matrix;
  f_training : matrix;
  f_training_labels : list string;
  f_training_labelsUniq : list string;
  f_pca : option (matrix * matrix * matrix);
  f_markers : list matrix;
  f_marker_files : list string
}.

(** The PCA basis as written, if there is one. *)
Definition saved_pca (p : PCA) (st : store)
  : option (matrix * matrix * matrix) :=
  if empty (eigenvectors p) then None
  else Some (load st (eigenvectors p), load st (eigenvalues p),
             load st (mean p)).

(** Modelled from the spec: [saveToFiles()], whose body is not in the
    header: writes the vocabulary, the training set, the PCA basis and the
    registered markers. *)
Definition saveToFiles (d : MarkerDetector) (st : store) : Files :=
  let p := descriptorPCA d in
  {| f_vocabulary := load st (vocabulary d);
     f_training := load st (training d);
     f_training_labels := training_labels d;
     f_training_labelsUniq := training_labelsUniq d;
     f_pca := saved_pca p st;
     f_markers := map (load st) (markers d);
     f_marker_files := marker_files d |}.

(** Reading a list of matrices into new buffers. *)
Fixpoint store_values (vs : list matrix) (st : store) : list Mat * store :=
  match vs with
  | [] => ([], st)
  | v :: vs' =>
      let '(m, st) := store_value v st in
      let '(ms, st) := store_values vs' st in
      (m :: ms, st)
  end.

(** Reading a PCA basis, when one was written. *)
Definition store_pca (b : option (matrix * matrix * matrix)) (st : store)
  : PCA * store :=
  match b with
  | None => (mkPCA Mat_new Mat_new Mat_new, st)
  | Some (ev, el, mn) =>
      let '(a, st) := store_value ev st in
      let '(b, st) := store_value el st in
      let '(c, st) := store_value mn st in
      (mkPCA a b c, st)
  end.

(** Modelled from the spec: [readFromFiles()], whose body is not in the
    header: reads back what [saveToFiles] wrote, into new matrices. *)
Definition readFromFiles (f : Files) (d : MarkerDetector) (st : store)
  : MarkerDetector * store :=
  let '(v, st) := store_value (f_vocabulary f) st in
  let '(tr, st) := store_value (f_training f) st in
  let '(p, st) := store_pca (f_pca f) st in
  let '(ms, st) := store_values (f_markers f) st in
  let d := set_vocabulary v d in
  let d := set_training tr d in
  let d := set_training_labels (f_training_labels f) d in
  let d := set_training_labelsUniq (f_training_labelsUniq f) d in
  let d := set_descriptorPCA p d in
  let d := set_markers ms d in
  let d := set_marker_files (f_marker_files f) d in
  (d, st).

End Members.

End MarkerDetector.

(** ** Properties under study and concrete inputs *)

Module Props.
Import Cv Backend Tracker.

(** The 4x4 identity, element by element. *)
Definition identity4 : matrix :=
  {| m_rows := 4; m_cols := 4;
     m_elems := [f1; f0; f0; f0;
                 f0; f1; f0; f0;
                 f0; f0; f1; f0;
                 f0; f0; f0; f1] |}.

(** A header is valid in a store when its buffer, if any, is allocated
    there.  Reference counting keeps this true of every live C++ header. *)
Definition valid (st : store) (m : Mat) : Prop :=
  match data m with
  | Some a => (a < length st)%nat
  | None => True
  end.

(** One store extends another when it only has more buffers. *)
Definition extends (st st' : store) : Prop := exists l, st' = st ++ l.

(** Two headers are detached when no write through one is seen through the
    other. *)
Definition detached (st : store) (a b : Mat) : Prop :=
  (forall i j x, load (put a i j x st) b = load st b) /\
  (forall i j x, load (put b i j x st) a = load st a).

(** The invariant of the tracked features: as many link entries as
    features. *)
Definition linked (t : Tracker) : Prop :=
  length (trackedFeatures t) = length (trackedFeaturesOnMarker t).

(** One neighbour is at most as far as another. *)
Definition nearerEq (x y : spec_float * string) : Prop :=
  MarkerDetector.distLe (fst x) (fst y) = true.

(** [reset] read as discarding the cached pose as well. *)
Definition reset_discards_pose (t : Tracker) : Prop :=
  trackedFeatures (reset t) = [] /\
  trackedFeaturesOnMarker (reset t) = [] /\
  state_of (reset t) = Bootstrapping /\
  empty (raux (reset t)) = true /\
  empty (taux (reset t)) = true /\
  empty (modelViewMatrix (reset t)) = true.

(** [getModelViewMatrix] read as returning a 4x4 matrix in every state. *)
Definition getter_returns_4x4 (t : Tracker) (st : store) : Prop :=
  let r := getModelViewMatrix t st in
  let m := fst (fst r) in
  empty m = false /\ snd (fst r) = t /\
  rows m = 4 /\ cols m = 4 /\
  (if empty (modelViewMatrix t) then load (snd r) m = identity4
   else m_elems (load (snd r) m) = m_elems (load st (modelViewMatrix t))) /\
  detached (snd r) m (modelViewMatrix t).

(** A tracker that holds nothing. *)
Definition blank : Tracker :=
  {| matcher := []; marker_frame := Mat_new; marker_desc := Mat_new;
     marker_kp := []; obj_bb := []; bootstrap := false; camMat := Mat_new;
     trackedFeatures := []; trackedFeaturesOnMarker := [];
     prevGray := Mat_new; toProcessFrame := Mat_new; raux := Mat_new;
     taux := Mat_new; homography := Mat_new; cvToGl := Mat_new;
     tracking := false; debug := false; newFrame := false;
     outputFrame := Mat_new; hmask := Mat_new;
     modelViewMatrix := Mat_new |}.

Definition kp_at (x y : Z) : KeyPoint :=
  mkKeyPoint (mkPoint2f (float_of_Z x) (float_of_Z y)) f1 f0 f0 0 0.

(** A store with one 4x4 buffer and one 3x3 buffer, and trackers whose pose
    matrix is one or the other. *)
Definition pose_store : store :=
  [ map float_of_Z [1; 0; 0; 5;  0; 1; 0; 6;  0; 0; 1; 7;  0; 0; 0; 1];
    map float_of_Z [1; 2; 3;  4; 5; 6;  7; 8; 9] ].

Definition posed : Tracker :=
  set_tracking true
    (set_trackedFeatures [kp_at 1 1; kp_at 2 1]
       (set_trackedFeaturesOnMarker [0; 1]
          (set_raux (mkMat 3 1 (Some 1%nat))
             (set_modelViewMatrix (mkMat 4 4 (Some 0%nat)) blank)))).

Definition posed3x3 : Tracker :=
  set_modelViewMatrix (mkMat 3 3 (Some 1%nat)) blank.

(** A small backend: a keypoint for every pixel, at (value, index); the
    descriptor of a keypoint is its abscissa; descriptor [i] matches marker
    descriptor [i]; every match is an inlier; features do not move and are
    followed as long as their abscissa is positive. *)
#[export] Instance toyBackend : FeatureBackend :=
  {| detect := fun img _ =>
       imap (fun i x => mkKeyPoint (mkPoint2f x (float_of_Z (Z.of_nat i)))
                                   f1 f0 f0 0 0) (m_elems img);
     compute := fun _ kp =>
       mkMatrix (Z.of_nat (length kp)) 1 (map (fun k => px (pt k)) kp);
     matchDescriptors := fun q _ =>
       imap (fun i _ => mkDMatch (Z.of_nat i) (Z.of_nat i) 0 f0) (m_elems q) |}.

#[export] Instance toyKernels : VisionKernels :=
  {| cvtColor := fun v => v;
     findHomography := fun _ _ =>
       mkMatrix 3 3 [f1; f0; f0;  f0; f1; f0;  f0; f0; f1];
     homographyInliers := fun _ src _ => map (fun _ => true) src;
     calcOpticalFlowPyrLK := fun _ _ pts =>
       (pts, map (fun p => SFltb f0 (px p)) pts);
     solvePnP := fun obj _ _ _ _ =>
       if (4 <=? length obj)%nat
       then Some (mkMatrix 3 1 [f0; f0; f0], mkMatrix 3 1 [f0; f0; f1])
       else None;
     modelViewOf := fun _ _ _ => identity4;
     axisFlip :=
       mkMatrix 4 4 (map float_of_Z
                       [1; 0; 0; 0;  0; -1; 0; 0;  0; 0; -1; 0;  0; 0; 0; 1]) |}.

(** A 4x4 frame of positive pixels and a 2x2 one. *)
Definition frame_store : store :=
  [ map float_of_Z [1; 2; 3; 1;  2; 3; 1; 2;  3; 1; 2; 3;  1; 2; 3; 1];
    map float_of_Z [1; 2; 3; 1] ].
Definition frame16 : Mat := mkMat 4 4 (Some 0%nat).
Definition frame4 : Mat := mkMat 2 2 (Some 1%nat).

(** A tracker that has bootstrapped on the 4x4 frame and tracks its
    sixteen keypoints: marker minimum 10, inlier minimum 4, tracking
    minimum 3. *)
Definition tracking_world : Tracker * store :=
  run 10 4 3 [CallSetMarker frame16; CallProcess frame16 Mat_new]
      (Tracker_new Mat_new frame_store).

(** Small learning kernels: the histogram of an image is its descriptor
    column, the projection changes nothing, and the distance is the sum of
    the absolute differences in binary32 arithmetic. *)
#[export] Instance toyBow : BowKernels :=
  {| kmeansCluster := fun ms => List.hd no_matrix ms;
     bowHistogram := fun _ desc => m_elems desc;
     pcaProject := fun _ _ _ h => h;
     encodingDistance := fun a b =>
       foldr (SFadd prec32 emax32) f0
             (zip_with (fun x y => SFabs (SFsub prec32 emax32 x y)) a b) |}.

(** A detector trained with three encodings, two labelled A and one B; its
    training matrix is the third buffer of the store, and the fourth buffer
    is a 2x2 frame unlike all three. *)
Definition trained_store : store :=
  frame_store ++
  [ map float_of_Z [1; 2; 3; 1;  3; 3; 3; 3;  1; 2; 3; 2];
    map float_of_Z [9; 9; 9; 9] ].

Definition trained : MarkerDetector.MarkerDetector :=
  MarkerDetector.mkMarkerDetector [] Mat_new [] []
    (MarkerDetector.mkPCA Mat_new Mat_new Mat_new) Mat_new Mat_new
    (mkMat 3 4 (Some 2%nat)) ["A"; "B"; "A"]%string ["A"; "B"]%string.

Definition far_frame : Mat := mkMat 2 2 (Some 3%nat).
Definition half : spec_float := S754_finite false 8388608 (-24).

End Props.

(** ** Histories of calls of the inline members *)

Module InlineCalls.
Import Cv Tracker.

(** A call of one of the members of [Tracker] that the header defines. *)
Inductive icall :=
| IGetTrackedFeatures
| IIsTracking
| ISetDebug (b : bool)
| ISetToProcessFrame (f : Mat)
| IGetModelViewMatrix
| IReset.

(** The two [const] members return a value and change nothing. *)
Definition iexec (w : Tracker * store) (c : icall) : Tracker * store :=
  let '(t, st) := w in
  match c with
  | IGetTrackedFeatures => (t, st)
  | IIsTracking => (t, st)
  | ISetDebug b => (setDebug b t, st)
  | ISetToProcessFrame f => (setToProcessFrame f t, st)
  | IGetModelViewMatrix =>
      let '(_, t, st) := getModelViewMatrix t st in (t, st)
  | IReset => (reset t, st)
  end.

Definition irun (cs : list icall) (w : Tracker * store) : Tracker * store :=
  fold_left iexec cs w.

(** How many of the calls are calls of [getModelViewMatrix]. *)
Definition is_getter (c : icall) : bool :=
  match c with IGetModelViewMatrix => true | _ => false end.

Definition getter_calls (cs : list icall) : nat :=
  length (List.filter is_getter cs).

(** The matrix value [getModelViewMatrix] hands out in a given state. *)
Definition pose_value (t : Tracker) (st : store) : matrix :=
  if empty (modelViewMatrix t) then mkMatrix 4 4 (eye_elems 4 4)
  else load st (modelViewMatrix t).

End InlineCalls.

(** * Facts about the matrix store *)

Module CvFacts.
Import Cv Props.

Lemma valid_alloc (st : store) (m : Mat) (b : list spec_float) :
  valid st m -> valid (st ++ [b]) m.
Proof.
  unfold valid. destruct (data m); [|done].
  rewrite length_app. simpl. lia.
Qed.

(** Allocation leaves every buffer that was there as it was. *)
Lemma buffer_of_alloc_old (st : store) (m : Mat) (b : list spec_float) :
  valid st m -> buffer_of (st ++ [b]) m = buffer_of st m.
Proof.
  unfold valid, buffer_of. destruct (data m) as [a|]; [|done].
  intros Ha. by rewrite lookup_app_l.
Qed.

Lemma load_alloc_old (st : store) (m : Mat) (b : list spec_float) :
  valid st m -> load (st ++ [b]) m = load st m.
Proof. intros Hv. unfold load. by rewrite buffer_of_alloc_old. Qed.

(** The header an allocation returns denotes the allocated value. *)
Lemma load_alloc_new (r c : Z) (b : list spec_float) (st : store) :
  load (snd (alloc r c b st)) (fst (alloc r c b st)) = mkMatrix r c b.
Proof.
  unfold load, buffer_of, alloc. simpl.
  by rewrite list_lookup_middle.
Qed.

Lemma load_store_value (v : matrix) (st : store) :
  load (snd (store_value v st)) (fst (store_value v st)) = v.
Proof. unfold store_value. rewrite load_alloc_new. by destruct v. Qed.

Lemma valid_alloc_new (r c : Z) (b : list spec_float) (st : store) :
  valid (snd (alloc r c b st)) (fst (alloc r c b st)).
Proof. unfold valid, alloc. simpl. rewrite length_app. simpl. lia. Qed.

(** A copy into a new header is an allocation of the source's elements. *)
Lemma copyTo_new (src : Mat) (st : store) :
  empty src = false ->
  copyTo src Mat_new st =
  (mkMat (rows src) (cols src) (Some (length st)), st ++ [buffer_of st src]).
Proof.
  intros He. unfold copyTo. rewrite He. simpl.
  unfold write_buffer. simpl. f_equal.
  rewrite insert_app_r_alt by lia.
  by rewrite Nat.sub_diag.
Qed.

(** A write through a header changes no buffer but the header's own. *)
Lemma buffer_of_put_other (a b : Mat) (i j : Z) (x : spec_float) (st : store) :
  data a <> data b -> buffer_of (put a i j x st) b = buffer_of st b.
Proof.
  intros Hne. unfold put, buffer_of.
  destruct (data a) as [pa|]; [|done].
  destruct (elem_index a i j); [|done].
  destruct (data b) as [pb|]; [|done].
  rewrite list_lookup_insert_ne; [done|]. congruence.
Qed.

Lemma load_put_other (a b : Mat) (i j : Z) (x : spec_float) (st : store) :
  data a <> data b -> load (put a i j x st) b = load st b.
Proof. intros Hne. unfold load. by rewrite buffer_of_put_other. Qed.

(** A header that points to a fresh buffer is detached from every header
    valid before the allocation. *)
Lemma fresh_detached (st st' : store) (r c : Z) (old : Mat) :
  valid st old -> detached st' (mkMat r c (Some (length st))) old.
Proof.
  intros Hv.
  assert (Hne : data (mkMat r c (Some (length st))) <> data old).
  { unfold valid in Hv. simpl. destruct (data old); [|done].
    intros [= Heq]. lia. }
  split; intros; apply load_put_other; [done|by apply not_eq_sym].
Qed.

Lemma eye_4_4 : eye_elems 4 4 = m_elems identity4.
Proof. reflexivity. Qed.

(** ** Store extension *)

Lemma extends_refl (st : store) : extends st st.
Proof. exists []. by rewrite app_nil_r. Qed.

Lemma extends_trans (st1 st2 st3 : store) :
  extends st1 st2 -> extends st2 st3 -> extends st1 st3.
Proof. intros [l1 ->] [l2 ->]. exists (l1 ++ l2). by rewrite app_assoc. Qed.

Lemma valid_extends (st st' : store) (m : Mat) :
  extends st st' -> valid st m -> valid st' m.
Proof.
  intros [l ->]. unfold valid. destruct (data m); [|done].
  rewrite length_app. lia.
Qed.

(** A valid header reads the same in every extension of its store. *)
Lemma load_extends (st st' : store) (m : Mat) :
  extends st st' -> valid st m -> load st' m = load st m.
Proof.
  intros [l ->]. unfold valid, load, buffer_of.
  destruct (data m) as [a|]; [|done].
  intros Ha. by rewrite lookup_app_l.
Qed.

(** What [store_value] establishes. *)
Lemma store_value_spec (v : matrix) (st : store) :
  extends st (snd (store_value v st)) /\
  valid (snd (store_value v st)) (fst (store_value v st)) /\
  load (snd (store_value v st)) (fst (store_value v st)) = v /\
  empty (fst (store_value v st)) = (m_rows v * m_cols v =? 0).
Proof.
  split; [by exists [m_elems v]|].
  split; [apply valid_alloc_new|].
  split; [apply load_store_value | done].
Qed.

End CvFacts.

(** * The inline members of [Tracker] *)

Module TrackerFacts.
Import Cv Backend Tracker Props CvFacts.

Lemma getModelViewMatrix_empty (t : Tracker) (st : store) :
  empty (modelViewMatrix t) = true ->
  getModelViewMatrix t st =
  (mkMat 4 4 (Some (length st)), t, st ++ [eye_elems 4 4]).
Proof. intros He. unfold getModelViewMatrix. by rewrite He. Qed.

Lemma getModelViewMatrix_stored (t : Tracker) (st : store) :
  empty (modelViewMatrix t) = false ->
  getModelViewMatrix t st =
  (mkMat (rows (modelViewMatrix t)) (cols (modelViewMatrix t))
         (Some (length st)),
   t, st ++ [buffer_of st (modelViewMatrix t)]).
Proof.
  intros He. unfold getModelViewMatrix, lock, unlock. rewrite He.
  by rewrite copyTo_new.
Qed.

(** C3.  On a tracker whose stored model-view matrix is empty (no pose was
    ever computed), [getModelViewMatrix] returns a 4x4 matrix whose elements
    are those of the identity; it always returns a matrix, there being no
    error path, and leaves the tracker as it was. *)
Theorem getModelViewMatrix_before_pose (t : Tracker) (st : store) :
  empty (modelViewMatrix t) = true ->
  let r := getModelViewMatrix t st in
  rows (fst (fst r)) = 4 /\ cols (fst (fst r)) = 4 /\
  load (snd r) (fst (fst r)) = identity4 /\
  (forall i j, 0 <= i < 4 -> 0 <= j < 4 ->
     get (fst (fst r)) i j (snd r) = Some (if i =? j then f1 else f0)) /\
  snd (fst r) = t.
Proof.
  intros He. rewrite (getModelViewMatrix_empty t st He). simpl.
  assert (Hl : load (st ++ [eye_elems 4 4]) (mkMat 4 4 (Some (length st)))
               = identity4).
  { change (mkMat 4 4 (Some (length st)))
      with (fst (alloc 4 4 (eye_elems 4 4) st)).
    change (st ++ [eye_elems 4 4]) with (snd (alloc 4 4 (eye_elems 4 4) st)).
    by rewrite load_alloc_new. }
  repeat split; [done|].
  intros i j Hi Hj. unfold get, elem_index. simpl.
  assert (Hb : buffer_of (st ++ [eye_elems 4 4]) (mkMat 4 4 (Some (length st)))
               = m_elems identity4).
  { change (buffer_of (st ++ [eye_elems 4 4]) (mkMat 4 4 (Some (length st))))
      with (m_elems (load (st ++ [eye_elems 4 4])
                          (mkMat 4 4 (Some (length st))))).
    by rewrite Hl. }
  rewrite Hb.
  assert (Hi' : i = 0 \/ i = 1 \/ i = 2 \/ i = 3) by lia.
  assert (Hj' : j = 0 \/ j = 1 \/ j = 2 \/ j = 3) by lia.
  destruct Hi' as [-> | [-> | [-> | ->]]];
    destruct Hj' as [-> | [-> | [-> | ->]]]; reflexivity.
Qed.

Lemma getModelViewMatrix_before_pose_witness :
  let r := getModelViewMatrix blank [] in
  rows (fst (fst r)) = 4 /\ cols (fst (fst r)) = 4 /\
  load (snd r) (fst (fst r)) = identity4 /\
  (forall i j, 0 <= i < 4 -> 0 <= j < 4 ->
     get (fst (fst r)) i j (snd r) = Some (if i =? j then f1 else f0)) /\
  snd (fst r) = blank.
Proof. apply (getModelViewMatrix_before_pose blank []). reflexivity. Defined.

(** What [reset] does to each member it assigns. *)
Lemma reset_fields (t : Tracker) :
  trackedFeatures (reset t) = [] /\
  trackedFeaturesOnMarker (reset t) = [] /\
  tracking (reset t) = true /\
  bootstrap (reset t) = true /\
  raux (reset t) = release (raux t) /\
  taux (reset t) = release (taux t).
Proof. by repeat split. Qed.

(** C4, as the code has it.  [reset] empties the tracked features and the
    link entries, sets both flags so that the state is Bootstrapping, and
    releases the seeds [raux] and [taux]; it does not touch the cached pose:
    [modelViewMatrix] is the same header after the reset, and the getter
    returns after the reset what it returned before. *)
Theorem reset_keeps_pose (t : Tracker) :
  trackedFeatures (reset t) = [] /\
  trackedFeaturesOnMarker (reset t) = [] /\
  tracking (reset t) = true /\
  bootstrap (reset t) = true /\
  state_of (reset t) = Bootstrapping /\
  empty (raux (reset t)) = true /\
  empty (taux (reset t)) = true /\
  modelViewMatrix (reset t) = modelViewMatrix t /\
  (forall st,
     fst (fst (getModelViewMatrix (reset t) st)) =
     fst (fst (getModelViewMatrix t st)) /\
     snd (getModelViewMatrix (reset t) st) = snd (getModelViewMatrix t st)).
Proof.
  repeat split; try reflexivity.
  - unfold getModelViewMatrix, lock, unlock.
    change (modelViewMatrix (reset t)) with (modelViewMatrix t).
    destruct (empty (modelViewMatrix t)); [done|].
    by destruct (copyTo (modelViewMatrix t) Mat_new st).
  - unfold getModelViewMatrix, lock, unlock.
    change (modelViewMatrix (reset t)) with (modelViewMatrix t).
    destruct (empty (modelViewMatrix t)); [done|].
    by destruct (copyTo (modelViewMatrix t) Mat_new st).
Qed.

(** C4, as stated, fails: on a tracker with a cached 4x4 pose the reset
    leaves the pose in place. *)
Lemma reset_discards_pose_fails : ~ reset_discards_pose posed.
Proof.
  unfold reset_discards_pose. intros (_ & _ & _ & _ & _ & Hmv).
  vm_compute in Hmv. discriminate.
Qed.

(** C9.  Right after [reset], [isTracking] is true: both flags are set and
    [isTracking] is their disjunction, although no feature is tracked. *)
Theorem isTracking_after_reset (t : Tracker) :
  isTracking (reset t) = true /\
  tracking (reset t) = true /\
  bootstrap (reset t) = true /\
  getTrackedFeatures (reset t) = [].
Proof. by repeat split. Qed.

(** C10, as the code has it.  In a store where the tracker's pose header is
    valid, [getModelViewMatrix] returns a non-empty matrix and the tracker
    unchanged; the matrix is the 4x4 identity when no pose is stored and
    otherwise has the shape and elements of the stored pose, whatever that
    shape is; every matrix of the store reads as before; and the returned
    matrix and the stored one are detached. *)
Theorem getModelViewMatrix_detached_copy (t : Tracker) (st : store) :
  valid st (modelViewMatrix t) ->
  let r := getModelViewMatrix t st in
  let m := fst (fst r) in
  empty m = false /\ snd (fst r) = t /\
  (if empty (modelViewMatrix t) then load (snd r) m = identity4
   else load (snd r) m = load st (modelViewMatrix t)) /\
  (rows (modelViewMatrix t) = 4 -> cols (modelViewMatrix t) = 4 ->
   rows m = 4 /\ cols m = 4) /\
  (forall h, valid st h -> load (snd r) h = load st h) /\
  detached (snd r) m (modelViewMatrix t).
Proof.
  intros Hv. simpl.
  destruct (empty (modelViewMatrix t)) eqn:He.
  - rewrite (getModelViewMatrix_empty t st He). simpl.
    repeat split.
    + change (load (snd (alloc 4 4 (eye_elems 4 4) st))
                   (fst (alloc 4 4 (eye_elems 4 4) st)) = identity4).
      by rewrite load_alloc_new.
    + intros h Hh. by apply load_alloc_old.
    + apply (fresh_detached st _ 4 4 _ Hv).
    + apply (fresh_detached st _ 4 4 _ Hv).
  - rewrite (getModelViewMatrix_stored t st He). simpl.
    repeat split.
    + unfold empty in *. simpl. unfold total in *. simpl.
      by destruct (data (modelViewMatrix t)).
    + set (src := modelViewMatrix t).
      change (load (snd (alloc (rows src) (cols src) (buffer_of st src) st))
                   (fst (alloc (rows src) (cols src) (buffer_of st src) st))
              = load st src).
      by rewrite load_alloc_new.
    + done.
    + done.
    + intros h Hh. by apply load_alloc_old.
    + apply (fresh_detached st _ _ _ _ Hv).
    + apply (fresh_detached st _ _ _ _ Hv).
Qed.

Lemma getModelViewMatrix_detached_copy_witness :
  let r := getModelViewMatrix posed pose_store in
  let m := fst (fst r) in
  empty m = false /\ snd (fst r) = posed /\
  (if empty (modelViewMatrix posed) then load (snd r) m = identity4
   else load (snd r) m = load pose_store (modelViewMatrix posed)) /\
  (rows (modelViewMatrix posed) = 4 -> cols (modelViewMatrix posed) = 4 ->
   rows m = 4 /\ cols m = 4) /\
  (forall h, valid pose_store h -> load (snd r) h = load pose_store h) /\
  detached (snd r) m (modelViewMatrix posed).
Proof.
  apply (getModelViewMatrix_detached_copy posed pose_store).
  unfold valid. simpl. lia.
Defined.

(** C10, as stated, fails: with a 3x3 matrix in the public member
    [modelViewMatrix] the getter returns a 3x3 copy. *)
Lemma getter_returns_4x4_fails : ~ getter_returns_4x4 posed3x3 pose_store.
Proof.
  unfold getter_returns_4x4. intros (_ & _ & Hrows & _).
  vm_compute in Hrows. discriminate.
Qed.

(** [reset] is idempotent. *)
Lemma reset_idempotent (t : Tracker) : reset (reset t) = reset t.
Proof. reflexivity. Qed.

(** [reset] assigns six members and no other. *)
Lemma reset_frame (t : Tracker) :
  matcher (reset t) = matcher t /\
  marker_frame (reset t) = marker_frame t /\
  marker_desc (reset t) = marker_desc t /\
  marker_kp (reset t) = marker_kp t /\
  obj_bb (reset t) = obj_bb t /\
  camMat (reset t) = camMat t /\
  prevGray (reset t) = prevGray t /\
  toProcessFrame (reset t) = toProcessFrame t /\
  homography (reset t) = homography t /\
  cvToGl (reset t) = cvToGl t /\
  debug (reset t) = debug t /\
  newFrame (reset t) = newFrame t /\
  outputFrame (reset t) = outputFrame t /\
  hmask (reset t) = hmask t.
Proof. by repeat split. Qed.

(** [setToProcessFrame] keeps the caller's header, not a copy of the frame:
    an element the caller writes afterwards is what the tracker reads. *)
Lemma setToProcessFrame_shares_buffer
    (f : Mat) (t : Tracker) (st : store) (i j : Z) (x : spec_float)
    (a k : nat) :
  data f = Some a -> (a < length st)%nat ->
  elem_index f i j = Some k -> (k < length (buffer_of st f))%nat ->
  let t' := setToProcessFrame f t in
  toProcessFrame t' = f /\ newFrame t' = true /\
  get (toProcessFrame t') i j (put f i j x st) = Some x.
Proof.
  intros Ha Hlt Hk Hlen. simpl. repeat split.
  unfold get, put, buffer_of in *. rewrite Ha in *. rewrite Hk.
  rewrite list_lookup_insert_eq by done. simpl.
  by rewrite list_lookup_insert_eq.
Qed.

Lemma setToProcessFrame_shares_buffer_witness :
  let t' := setToProcessFrame frame4 blank in
  toProcessFrame t' = frame4 /\ newFrame t' = true /\
  get (toProcessFrame t') 1 0 (put frame4 1 0 f0 frame_store) = Some f0.
Proof.
  apply (setToProcessFrame_shares_buffer frame4 blank frame_store 1 0 f0
           1%nat 2%nat); [reflexivity | simpl; lia | reflexivity | simpl; lia].
Defined.

End TrackerFacts.

(** * The tracking members, as modelled from the specification *)

Module TrackingFacts.
Import Cv Backend Tracker Props CvFacts TrackerFacts.

(** Filtering two vectors by one status vector keeps them paired. *)
Lemma keepByStatus_zip {A B : Type} (s : list bool) (l1 : list A) (l2 : list B) :
  keepByStatus s (zip l1 l2) = zip (keepByStatus s l1) (keepByStatus s l2).
Proof.
  revert l1 l2. induction s as [|b s IH]; intros l1 l2; [done|].
  destruct l1 as [|x l1]; [done|].
  destruct l2 as [|y l2].
  { simpl. by rewrite zip_with_nil_r. }
  simpl. destruct b; simpl; by rewrite IH.
Qed.

(** The survivors of a flow step and the surviving links are equally many
    whenever the features and the links were. *)
Lemma keepByStatus_flow_length {A B : Type} (f : bool -> Point2f -> bool)
    (g : A -> Point2f -> A) (status : list bool) (next : list Point2f)
    (l1 : list A) (l2 : list B) :
  length l1 = length l2 ->
  length (keepByStatus (zip_with f status next) (zip_with g l1 next)) =
  length (keepByStatus (zip_with f status next) l2).
Proof.
  revert next l1 l2.
  induction status as [|b status IH]; intros next l1 l2 Hlen; [done|].
  destruct next as [|p next]; [done|].
  destruct l1 as [|x l1], l2 as [|y l2]; try done.
  simpl in *. injection Hlen as Hlen.
  destruct (f b p); simpl; by rewrite (IH next l1 l2 Hlen).
Qed.

Section Members.
Context `{FeatureBackend} `{VisionKernels}.
Variables (minMarkerKeypoints minInliers minTrackedFeatures : nat).

#[local] Abbreviation setMarker := (setMarker minMarkerKeypoints).
#[local] Abbreviation bootstrapTracking := (bootstrapTracking minInliers).
#[local] Abbreviation track := (track minTrackedFeatures).
#[local] Abbreviation process := (process minInliers minTrackedFeatures).
#[local] Abbreviation exec := (exec minMarkerKeypoints minInliers minTrackedFeatures).
#[local] Abbreviation run := (run minMarkerKeypoints minInliers minTrackedFeatures).

Lemma linked_new (cam : Mat) (st : store) : linked (fst (Tracker_new cam st)).
Proof. unfold Tracker_new. by destruct (store_value axisFlip st). Qed.

Lemma linked_reset (t : Tracker) : linked (reset t).
Proof. done. Qed.

Lemma linked_setMarker (marker : Mat) (t : Tracker) (st : store) :
  linked t -> linked (snd (fst (setMarker marker t st))).
Proof.
  intros Hl. unfold Tracker.setMarker.
  destruct (_ <? _)%nat; [done|].
  by destruct (store_value _ st).
Qed.

Lemma linked_bootstrapTracking (frame h mask : Mat) (t : Tracker) (st : store) :
  linked t -> linked (fst (bootstrapTracking frame h mask t st)).
Proof.
  intros Hl. unfold Tracker.bootstrapTracking.
  destruct (empty frame); [done|].
  destruct (_ <? _)%nat; [done|].
  destruct (store_value _ st) as [hm st1].
  destruct (store_value _ st1) as [g st2].
  unfold linked. simpl. by rewrite !length_map.
Qed.

Lemma linked_trackFlow (frame : Mat) (t : Tracker) (st : store) :
  linked t -> linked (fst (trackFlow frame t st)).
Proof.
  intros Hl. unfold trackFlow.
  destruct (calcOpticalFlowPyrLK _ _ _) as [next status].
  destruct (store_value _ st) as [g st1].
  unfold linked, flowStatus. simpl.
  by apply keepByStatus_flow_length.
Qed.

Lemma linked_track (frame : Mat) (t : Tracker) (st : store) :
  linked t -> linked (fst (track frame t st)).
Proof.
  intros Hl. unfold Tracker.track.
  destruct (empty frame); [done|].
  pose proof (linked_trackFlow frame t st Hl) as Hf.
  destruct (trackFlow frame t st) as [t1 st1]. simpl in Hf.
  by destruct (_ <? _)%nat.
Qed.

Lemma linked_calcModelViewMatrix (t : Tracker) (st : store) :
  linked t -> linked (fst (calcModelViewMatrix t st)).
Proof.
  intros Hl. unfold calcModelViewMatrix.
  destruct (negb _); [done|].
  destruct (solvePnP _ _ _ _ _) as [[r tv]|]; [|done].
  destruct (store_value r st) as [rh st1].
  destruct (store_value tv st1) as [th st2].
  by destruct (store_value _ st2).
Qed.

Lemma linked_process (frame mask : Mat) (t : Tracker) (st : store) :
  linked t -> linked (snd (fst (process frame mask t st))).
Proof.
  intros Hl. unfold Tracker.process.
  destruct (empty frame); [done|].
  assert (Hd : linked (fst (match state_of t with
                            | Bootstrapping =>
                                bootstrapTracking frame Mat_new mask t st
                            | Tracking => track frame t st
                            | Idle => (t, st)
                            end))).
  { destruct (state_of t);
      [done | by apply linked_bootstrapTracking | by apply linked_track]. }
  destruct (match state_of t with
            | Bootstrapping => _ | Tracking => _ | Idle => _ end) as [t1 st1].
  simpl in Hd.
  destruct (canCalcModelViewMatrix t1); [|done].
  pose proof (linked_calcModelViewMatrix t1 st1 Hd) as Hc.
  by destruct (calcModelViewMatrix t1 st1).
Qed.

Lemma getModelViewMatrix_tracker (t : Tracker) (st : store) :
  snd (fst (getModelViewMatrix t st)) = t.
Proof.
  destruct (empty (modelViewMatrix t)) eqn:He.
  - by rewrite getModelViewMatrix_empty.
  - by rewrite getModelViewMatrix_stored.
Qed.

Lemma linked_exec (w : Tracker * store) (c : call) :
  linked (fst w) -> linked (fst (exec w c)).
Proof.
  destruct w as [t st]. simpl. intros Hl.
  destruct c as [marker | frame h mask | frame | frame mask | | | b | f | | v];
    simpl.
  - pose proof (linked_setMarker marker t st Hl) as Hs.
    by destruct (setMarker marker t st) as [[? ?] ?].
  - by apply linked_bootstrapTracking.
  - by apply linked_track.
  - pose proof (linked_process frame mask t st Hl) as Hs.
    by destruct (process frame mask t st) as [[? ?] ?].
  - by apply linked_calcModelViewMatrix.
  - pose proof (getModelViewMatrix_tracker t st) as Hs.
    destruct (getModelViewMatrix t st) as [[? ?] ?]. simpl in *. by subst.
  - done.
  - done.
  - done.
  - done.
Qed.

Lemma linked_run (cs : list call) (w : Tracker * store) :
  linked (fst w) -> linked (fst (run cs w)).
Proof.
  revert w. induction cs as [|c cs IH]; intros w Hl; [done|].
  simpl. apply IH. by apply linked_exec.
Qed.

(** C1.  After any sequence of calls on a new tracker ([setMarker],
    [bootstrapTracking], [track], [process], [reset] and the others) the
    tracked features and their link entries are equally many; and the flow
    step of [track] keeps features and links paired: the surviving pairs are
    the pairs whose status is set, so a dropped feature takes with it the
    link entry at its own index. *)
Theorem tracked_features_linked (cam : Mat) (st0 : store) (cs : list call)
    (frame : Mat) (t : Tracker) (st : store) :
  length (trackedFeatures (fst (run cs (Tracker_new cam st0)))) =
  length (trackedFeaturesOnMarker (fst (run cs (Tracker_new cam st0)))) /\
  (let gray := cvtColor (load st frame) in
   let flow := calcOpticalFlowPyrLK (load st (prevGray t)) gray
                                    (map pt (trackedFeatures t)) in
   let t' := fst (trackFlow frame t st) in
   zip (trackedFeatures t') (trackedFeaturesOnMarker t') =
   keepByStatus (flowStatus gray (fst flow) (snd flow))
     (zip (zip_with moveTo (trackedFeatures t) (fst flow))
          (trackedFeaturesOnMarker t))) /\
  trackedFeatures (reset t) = [] /\ trackedFeaturesOnMarker (reset t) = [].
Proof.
  split; [|split; [|done]].
  - apply linked_run, linked_new.
  - simpl. unfold trackFlow.
    destruct (calcOpticalFlowPyrLK _ _ _) as [next status].
    destruct (store_value _ st) as [g st1]. simpl.
    by rewrite keepByStatus_zip.
Qed.

(** An empty frame fails the call: [bootstrapTracking], [track] and
    [process] leave the tracker and the store as they were. *)
Lemma empty_frame_fails (frame h mask : Mat) (t : Tracker) (st : store) :
  empty frame = true ->
  bootstrapTracking frame h mask t st = (t, st) /\
  track frame t st = (t, st) /\
  process frame mask t st = (outputFrame t, t, st).
Proof.
  intros He.
  unfold Tracker.bootstrapTracking, Tracker.track, Tracker.process.
  by rewrite He.
Qed.

(** C2.  When [track] is given a frame (a non-empty image) on which the
    flow step leaves fewer features than the minimum, a tracker that was
    Tracking is Bootstrapping after the call: [track] ends with [reset].
    The next [process] then takes the bootstrap branch on every frame, and on an empty image it fails and
    leaves the tracker Bootstrapping. *)
Theorem track_lost_bootstraps (frame : Mat) (t : Tracker) (st : store) :
  state_of t = Tracking ->
  empty frame = false ->
  (length (trackedFeatures (fst (trackFlow frame t st)))
   < minTrackedFeatures)%nat ->
  let w := track frame t st in
  state_of (fst w) = Bootstrapping /\
  fst w = reset (fst (trackFlow frame t st)) /\
  (forall frame' mask,
     let p := process frame' mask (fst w) (snd w) in
     (empty frame' = false ->
      p = let b := bootstrapTracking frame' Mat_new mask (fst w) (snd w) in
          let c := if canCalcModelViewMatrix (fst b)
                   then calcModelViewMatrix (fst b) (snd b) else b in
          (outputFrame (fst c), fst c, snd c)) /\
     (empty frame' = true ->
      snd (fst p) = fst w /\ snd p = snd w /\
      state_of (snd (fst p)) = Bootstrapping)).
Proof.
  intros _ Hne Hlt.
  assert (Hw : track frame t st =
               (reset (fst (trackFlow frame t st)),
                snd (trackFlow frame t st))).
  { unfold Tracker.track. rewrite Hne.
    destruct (trackFlow frame t st) as [t1 st1].
    simpl in *. apply Nat.ltb_lt in Hlt. by rewrite Hlt. }
  cbv zeta. rewrite Hw. cbn [fst snd]. split; [done|]. split; [done|].
  intros frame' mask. split.
  - intros He'. unfold Tracker.process. rewrite He'.
    change (state_of (reset (fst (trackFlow frame t st))))
      with Bootstrapping.
    cbv iota.
    destruct (bootstrapTracking frame' Mat_new mask _ _) as [t2 st2].
    cbn [fst snd].
    destruct (canCalcModelViewMatrix t2); [|done].
    by destruct (calcModelViewMatrix t2 st2).
  - intros He'. unfold Tracker.process. by rewrite He'.
Qed.

(** C6.  [setMarker] succeeds on a marker with at least the minimum number
    of detected keypoints, storing the frame, the keypoints and the
    descriptors and training the matcher; with fewer keypoints it returns
    the error code, which is not the success code, and the tracker and the
    store are exactly as before. *)
Theorem setMarker_threshold (marker : Mat) (t : Tracker) (st : store) :
  let img := load st marker in
  let kp := detect img no_matrix in
  let r := setMarker marker t st in
  ((minMarkerKeypoints <= length kp)%nat ->
     fst (fst r) = SETMARKER_OK /\
     marker_frame (snd (fst r)) = marker /\
     marker_kp (snd (fst r)) = kp /\
     load (snd r) (marker_desc (snd (fst r))) = compute img kp /\
     matcher (snd (fst r)) = [marker_desc (snd (fst r))] /\
     state_of (snd (fst r)) = Bootstrapping) /\
  ((length kp < minMarkerKeypoints)%nat ->
     r = (SETMARKER_INSUFFICIENT_FEATURES, t, st)) /\
  SETMARKER_INSUFFICIENT_FEATURES <> SETMARKER_OK.
Proof.
  simpl. unfold Tracker.setMarker. split; [|split].
  - intros Hge. apply Nat.ltb_ge in Hge. rewrite Hge.
    pose proof (load_store_value
                  (compute (load st marker) (detect (load st marker) no_matrix))
                  st) as Hld.
    destruct (store_value _ st) as [desc st1]. by repeat split.
  - intros Hlt. apply Nat.ltb_lt in Hlt. by rewrite Hlt.
  - discriminate.
Qed.

End Members.

Lemma track_lost_bootstraps_witness :
  length (trackedFeatures (fst tracking_world)) = 16%nat /\
  length (trackedFeatures
            (fst (trackFlow frame4 (fst tracking_world)
                            (snd tracking_world)))) = 1%nat /\
  let w := track 3 frame4 (fst tracking_world) (snd tracking_world) in
  state_of (fst w) = Bootstrapping /\
  fst w = reset (fst (trackFlow frame4 (fst tracking_world)
                                (snd tracking_world))) /\
  (forall frame' mask,
     let p := process 4 3 frame' mask (fst w) (snd w) in
     (empty frame' = false ->
      p = let b := bootstrapTracking 4 frame' Mat_new mask (fst w) (snd w) in
          let c := if canCalcModelViewMatrix (fst b)
                   then calcModelViewMatrix (fst b) (snd b) else b in
          (outputFrame (fst c), fst c, snd c)) /\
     (empty frame' = true ->
      snd (fst p) = fst w /\ snd p = snd w /\
      state_of (snd (fst p)) = Bootstrapping)).
Proof.
  split; [vm_compute; reflexivity|]. split; [vm_compute; reflexivity|].
  apply (track_lost_bootstraps 4 3 frame4 (fst tracking_world)
           (snd tracking_world));
    [vm_compute; reflexivity | reflexivity | vm_compute; lia].
Defined.

(** A run on the small backend: a 4x4 marker is accepted and a 2x2 one
    refused; the first frame bootstraps sixteen features; a second frame
    keeps the four that stay inside it; and on a 2x2 frame the features outside it are dropped with
    their links, too few are left, and the tracker is Bootstrapping again
    with the pose of the last good frame still cached. *)
Example run_setMarker_refused :
  setMarker 10 frame4 blank frame_store
  = (SETMARKER_INSUFFICIENT_FEATURES, blank, frame_store).
Proof. reflexivity. Qed.

Example run_bootstrap_then_track :
  let w := run 10 4 3 [CallSetMarker frame16; CallProcess frame16 Mat_new;
                       CallProcess frame16 Mat_new]
               (Tracker_new Mat_new frame_store) in
  state_of (fst w) = Tracking /\
  trackedFeaturesOnMarker (fst w) = [0; 1; 2; 3] /\
  map (fun k => py (pt k)) (trackedFeatures (fst w))
  = map float_of_Z [0; 1; 2; 3] /\
  empty (modelViewMatrix (fst w)) = false.
Proof. vm_compute. by repeat split. Qed.

Example run_tracking_lost :
  let w := run 10 4 3 [CallSetMarker frame16; CallProcess frame16 Mat_new;
                       CallProcess frame4 Mat_new]
               (Tracker_new Mat_new frame_store) in
  state_of (fst w) = Bootstrapping /\ isTracking (fst w) = true /\
  trackedFeatures (fst w) = [] /\ trackedFeaturesOnMarker (fst w) = [] /\
  empty (modelViewMatrix (fst w)) = false.
Proof. vm_compute. by repeat split. Qed.

End TrackingFacts.

(** * The marker detector, as modelled from the specification *)

Module MarkerDetectorFacts.
Import Cv Backend MarkerDetector Props CvFacts.

(** ** Votes *)







(** ** The order of distances *)

Ltac cmp_cases :=
  repeat match goal with
  | H : context [Z.compare ?x ?y] |- _ => destruct (Z.compare_spec x y)
  | |- context [Z.compare ?x ?y] => destruct (Z.compare_spec x y)
  | H : context [Pos.compare_cont Eq ?x ?y] |- _ =>
      change (Pos.compare_cont Eq x y) with (Pos.compare x y) in *;
      destruct (Pos.compare_spec x y)
  | |- context [Pos.compare_cont Eq ?x ?y] =>
      change (Pos.compare_cont Eq x y) with (Pos.compare x y) in *;
      destruct (Pos.compare_spec x y)
  end.


Lemma distLe_trans (a b c : spec_float) :
  distLe a b = true -> distLe b c = true -> distLe a c = true.
Proof.
  unfold distLe.
  destruct a as [[]|[]| |[] ma ea], b as [[]|[]| |[] mb eb],
           c as [[]|[]| |[] mc ec]; simpl; try congruence;
    intros Hab Hbc; cmp_cases; simpl in *; subst; try congruence; try lia.
Qed.


#[local] Instance nearerEq_transitive : Transitive nearerEq.
Proof. intros x y z. unfold nearerEq. apply distLe_trans. Qed.

(** ** Sorting by distance *)




Lemma insertByDistance_perm (x : spec_float * string)
    (l : list (spec_float * string)) :
  insertByDistance x l ≡ₚ x :: l.
Proof.
  induction l as [|y l IH]; simpl; [done|].
  destruct (distLe (fst y) (fst x)); [|done].
  rewrite IH. apply Permutation_swap.
Qed.

Lemma sortByDistance_perm (l : list (spec_float * string)) :
  sortByDistance l ≡ₚ l.
Proof.
  induction l as [|x l IH]; simpl; [done|].
  by rewrite insertByDistance_perm, IH.
Qed.

Lemma sortByDistance_nil (l : list (spec_float * string)) :
  sortByDistance l = [] <-> l = [].
Proof.
  split; [|by intros ->].
  intros Hs. apply Permutation_nil_r. by rewrite <- Hs, sortByDistance_perm.
Qed.

(** ** Reading matrices back *)

Lemma store_values_spec (vs : list matrix) (st : store) :
  extends st (snd (store_values vs st)) /\
  map (load (snd (store_values vs st))) (fst (store_values vs st)) = vs.
Proof.
  revert st. induction vs as [|v vs IH]; intros st.
  { split; [apply extends_refl | done]. }
  cbn [store_values].
  destruct (store_value_spec v st) as (He & Hv & Hl & _).
  destruct (store_value v st) as [m st1]. cbn [fst snd] in *.
  destruct (IH st1) as (He' & Hm).
  destruct (store_values vs st1) as [ms st2]. cbn [fst snd map] in *.
  split; [exact (extends_trans _ _ _ He He')|].
  f_equal; [|done].
  rewrite <- Hl. by apply load_extends.
Qed.

Section Members.
Context `{FeatureBackend} `{BowKernels}.
Variable knnK : nat.
Variable rejectThreshold : spec_float.

(** A PCA basis read back projects as the saved one did, in every later
    store. *)
Lemma store_pca_spec (p : PCA) (st st2 : store) :
  extends st2 (snd (store_pca (saved_pca p st) st2)) /\
  (forall st', extends (snd (store_pca (saved_pca p st) st2)) st' ->
     forall h, project (fst (store_pca (saved_pca p st) st2)) st' h =
               project p st h).
Proof.
  unfold saved_pca.
  destruct (empty (eigenvectors p)) eqn:He; cbn [store_pca].
  { split; [apply extends_refl|]. intros st' _ h.
    unfold project. cbn. by rewrite He. }
  destruct (store_value_spec (load st (eigenvectors p)) st2)
    as (Ea & Va & La & Na).
  destruct (store_value (load st (eigenvectors p)) st2) as [a sa].
  cbn [fst snd] in *.
  destruct (store_value_spec (load st (eigenvalues p)) sa) as (Eb & Vb & Lb & _).
  destruct (store_value (load st (eigenvalues p)) sa) as [b sb].
  cbn [fst snd] in *.
  destruct (store_value_spec (load st (mean p)) sb) as (Ec & Vc & Lc & _).
  destruct (store_value (load st (mean p)) sb) as [c sc].
  cbn [fst snd] in *.
  split; [exact (extends_trans _ _ _ Ea (extends_trans _ _ _ Eb Ec))|].
  intros st' Es h. unfold project. cbn [eigenvectors eigenvalues mean].
  assert (Hne : empty a = false).
  { rewrite Na. cbn [m_rows m_cols load]. unfold empty, total in He.
    destruct (data (eigenvectors p)); [done | discriminate]. }
  rewrite Hne, He.
  rewrite (load_extends sa st' a
             (extends_trans _ _ _ Eb (extends_trans _ _ _ Ec Es)) Va), La.
  rewrite (load_extends sb st' b (extends_trans _ _ _ Ec Es) Vb), Lb.
  by rewrite (load_extends sc st' c Es Vc), Lc.
Qed.

#[local] Abbreviation detectMarkerInImage :=
  (detectMarkerInImage knnK rejectThreshold).

(** The encoding and the training set are all a detection reads. *)
Lemma detectMarkerInImage_ext (img mask img' mask' : Mat)
    (d d' : MarkerDetector) (st st' : store) :
  encode img' mask' d' st' = encode img mask d st ->
  trainingSet d' st' = trainingSet d st ->
  detectMarkerInImage img' mask' d' st' = detectMarkerInImage img mask d st.
Proof.
  intros He Ht. unfold MarkerDetector.detectMarkerInImage. by rewrite He, Ht.
Qed.


(** C8.  A detector read back from what [saveToFiles] wrote classifies
    every image of the store as the saved detector did, whatever detector
    the files are read into. *)
Theorem save_load_same_detection (d d0 : MarkerDetector) (st : store)
    (img mask : Mat) :
  valid st img -> valid st mask ->
  let w := readFromFiles (saveToFiles d st) d0 st in
  detectMarkerInImage img mask (fst w) (snd w) =
  detectMarkerInImage img mask d st.
Proof.
  intros Hi Hm. cbv zeta. unfold readFromFiles, saveToFiles.
  cbn [f_vocabulary f_training f_training_labels f_training_labelsUniq
       f_pca f_markers f_marker_files].
  destruct (store_value_spec (load st (vocabulary d)) st) as (E1 & V1 & L1 & _).
  destruct (store_value (load st (vocabulary d)) st) as [v st1].
  cbn [fst snd] in *.
  destruct (store_value_spec (load st (training d)) st1) as (E2 & V2 & L2 & _).
  destruct (store_value (load st (training d)) st1) as [tr st2].
  cbn [fst snd] in *.
  destruct (store_pca_spec (descriptorPCA d) st st2) as (E3 & P3).
  destruct (store_pca (saved_pca (descriptorPCA d) st) st2) as [p st3].
  cbn [fst snd] in *.
  destruct (store_values_spec (map (load st) (markers d)) st3) as (E4 & _).
  destruct (store_values (map (load st) (markers d)) st3) as [ms st4].
  cbn [fst snd] in *.
  assert (E24 : extends st2 st4) by exact (extends_trans _ _ _ E3 E4).
  assert (E14 : extends st1 st4) by exact (extends_trans _ _ _ E2 E24).
  assert (E04 : extends st st4) by exact (extends_trans _ _ _ E1 E14).
  apply detectMarkerInImage_ext.
  - unfold encode, extractBOWdescriptor. cbn.
    rewrite (load_extends st st4 img E04 Hi).
    rewrite (load_extends st st4 mask E04 Hm).
    rewrite (load_extends st1 st4 v E14 V1), L1.
    apply (P3 st4 E4).
  - unfold trainingSet. cbn.
    by rewrite (load_extends st2 st4 tr E24 V2), L2.
Qed.

End Members.

Lemma save_load_same_detection_witness :
  let w := readFromFiles (saveToFiles trained trained_store) trained
                         trained_store in
  detectMarkerInImage 3 half frame4 Mat_new (fst w) (snd w) =
  detectMarkerInImage 3 half frame4 Mat_new trained trained_store.
Proof.
  apply (save_load_same_detection 3 half trained trained trained_store
           frame4 Mat_new); unfold valid; simpl; [lia | done].
Defined.

(** A distance that is not a number is sorted after the numbers. *)
Example sort_nan_last :
  sortByDistance [(S754_nan, "B"%string); (f1, "A"%string);
                  (S754_nan, "C"%string); (f0, "A"%string)]
  = [(f0, "A"%string); (f1, "A"%string);
     (S754_nan, "C"%string); (S754_nan, "B"%string)].
Proof. reflexivity. Qed.

(** The three outcomes on the small detector: a frame equal to a training
    encoding is recognised by the majority of its three neighbours, a frame
    far from all of them is not, and the same frame is recognised once the
    threshold is raised. *)
Example detect_near :
  detectMarkerInImage 3 half frame4 Mat_new trained trained_store = "A"%string.
Proof. reflexivity. Qed.

Example detect_far :
  detectMarkerInImage 3 half far_frame Mat_new trained trained_store
  = NO_MARKER.
Proof. reflexivity. Qed.

Example detect_far_lenient :
  detectMarkerInImage 3 (float_of_Z 100) far_frame Mat_new trained
                      trained_store = "A"%string.
Proof. reflexivity. Qed.

Example detect_untrained :
  detectMarkerInImage 3 half frame4 Mat_new
    (setTrainingLabels [] trained) trained_store = NO_MARKER.
Proof. reflexivity. Qed.

(** The inline accessors: each of the four setters stores its argument,
    which the matching getter returns, and leaves each of the nine other
    members as it was.  So the labels, the distinct labels and the training
    matrix are set independently of one another. *)
Lemma setters_getters (d : MarkerDetector) (m : Mat) (l : list string)
    (p : PCA) :
  (getTraining (setTraining m d) = m /\
   bowtrainer (setTraining m d) = bowtrainer d /\
   getVocabulary (setTraining m d) = getVocabulary d /\
   markers (setTraining m d) = markers d /\
   getMarkerFiles (setTraining m d) = getMarkerFiles d /\
   getDescriptorPca (setTraining m d) = getDescriptorPca d /\
   descriptorsBeforePCA (setTraining m d) = descriptorsBeforePCA d /\
   descriptorsAfterPCA (setTraining m d) = descriptorsAfterPCA d /\
   getTrainingLabels (setTraining m d) = getTrainingLabels d /\
   training_labelsUniq (setTraining m d) = training_labelsUniq d) /\
  (getTrainingLabels (setTrainingLabels l d) = l /\
   bowtrainer (setTrainingLabels l d) = bowtrainer d /\
   getVocabulary (setTrainingLabels l d) = getVocabulary d /\
   markers (setTrainingLabels l d) = markers d /\
   getMarkerFiles (setTrainingLabels l d) = getMarkerFiles d /\
   getDescriptorPca (setTrainingLabels l d) = getDescriptorPca d /\
   descriptorsBeforePCA (setTrainingLabels l d) = descriptorsBeforePCA d /\
   descriptorsAfterPCA (setTrainingLabels l d) = descriptorsAfterPCA d /\
   getTraining (setTrainingLabels l d) = getTraining d /\
   training_labelsUniq (setTrainingLabels l d) = training_labelsUniq d) /\
  (getDescriptorPca (setDescriptorPca p d) = p /\
   bowtrainer (setDescriptorPca p d) = bowtrainer d /\
   getVocabulary (setDescriptorPca p d) = getVocabulary d /\
   markers (setDescriptorPca p d) = markers d /\
   getMarkerFiles (setDescriptorPca p d) = getMarkerFiles d /\
   descriptorsBeforePCA (setDescriptorPca p d) = descriptorsBeforePCA d /\
   descriptorsAfterPCA (setDescriptorPca p d) = descriptorsAfterPCA d /\
   getTraining (setDescriptorPca p d) = getTraining d /\
   getTrainingLabels (setDescriptorPca p d) = getTrainingLabels d /\
   training_labelsUniq (setDescriptorPca p d) = training_labelsUniq d) /\
  (getMarkerFiles (setMarkerFiles l d) = l /\
   bowtrainer (setMarkerFiles l d) = bowtrainer d /\
   getVocabulary (setMarkerFiles l d) = getVocabulary d /\
   markers (setMarkerFiles l d) = markers d /\
   getDescriptorPca (setMarkerFiles l d) = getDescriptorPca d /\
   descriptorsBeforePCA (setMarkerFiles l d) = descriptorsBeforePCA d /\
   descriptorsAfterPCA (setMarkerFiles l d) = descriptorsAfterPCA d /\
   getTraining (setMarkerFiles l d) = getTraining d /\
   getTrainingLabels (setMarkerFiles l d) = getTrainingLabels d /\
   training_labelsUniq (setMarkerFiles l d) = training_labelsUniq d).
Proof. by repeat split. Qed.

End MarkerDetectorFacts.

(** * The inline members under composition *)

Module InlineFacts.
Import Cv Tracker MarkerDetector Props InlineCalls CvFacts TrackerFacts.

(** [getModelViewMatrix] allocates the pose value and changes nothing. *)
Lemma getModelViewMatrix_alloc (t : Tracker) (st : store) :
  getModelViewMatrix t st =
  (mkMat (m_rows (pose_value t st)) (m_cols (pose_value t st))
         (Some (length st)),
   t, st ++ [m_elems (pose_value t st)]).
Proof.
  unfold pose_value. destruct (empty (modelViewMatrix t)) eqn:He.
  - by rewrite getModelViewMatrix_empty.
  - by rewrite getModelViewMatrix_stored.
Qed.

Lemma pose_value_extends (t : Tracker) (st st' : store) :
  extends st st' -> valid st (modelViewMatrix t) ->
  pose_value t st' = pose_value t st.
Proof.
  intros He Hv. unfold pose_value.
  destruct (empty (modelViewMatrix t)); [done|]. by apply load_extends.
Qed.

Lemma load_at (st : store) (r c : Z) (a : nat) (b : list spec_float) :
  st !! a = Some b -> load st (mkMat r c (Some a)) = mkMatrix r c b.
Proof. intros Hl. unfold load, buffer_of. simpl. by rewrite Hl. Qed.

Lemma length_put (m : Mat) (i j : Z) (x : spec_float) (st : store) :
  length (put m i j x st) = length st.
Proof.
  unfold put. destruct (data m); [|done].
  destruct (elem_index m i j); [|done]. by rewrite length_insert.
Qed.

(** Reading back the element just written. *)
Lemma get_put_same (f : Mat) (st : store) (i j : Z) (x : spec_float)
    (a k : nat) :
  data f = Some a -> (a < length st)%nat ->
  elem_index f i j = Some k -> (k < length (buffer_of st f))%nat ->
  get f i j (put f i j x st) = Some x.
Proof.
  intros Ha Hlt Hk Hlen.
  unfold get, put, buffer_of in *. rewrite Ha in *. rewrite Hk.
  rewrite list_lookup_insert_eq by done. simpl.
  by rewrite list_lookup_insert_eq.
Qed.

(** Two calls of [getModelViewMatrix] in a row return two matrices with the
    same shape and elements in two different buffers: the second call does
    not disturb the first result, the two results are detached, and each
    call has allocated one buffer. *)
Lemma getModelViewMatrix_twice (t : Tracker) (st : store) :
  valid st (modelViewMatrix t) ->
  let r1 := getModelViewMatrix t st in
  let r2 := getModelViewMatrix (snd (fst r1)) (snd r1) in
  load (snd r2) (fst (fst r2)) = load (snd r2) (fst (fst r1)) /\
  load (snd r2) (fst (fst r1)) = load (snd r1) (fst (fst r1)) /\
  data (fst (fst r1)) <> data (fst (fst r2)) /\
  detached (snd r2) (fst (fst r1)) (fst (fst r2)) /\
  length (snd r2) = S (S (length st)).
Proof.
  intros Hv. cbv zeta.
  rewrite (getModelViewMatrix_alloc t st). cbn [fst snd].
  rewrite (getModelViewMatrix_alloc t (st ++ _)). cbn [fst snd].
  assert (Hp : pose_value t (st ++ [m_elems (pose_value t st)])
               = pose_value t st).
  { apply pose_value_extends; [by eexists | done]. }
  rewrite Hp.
  set (e := m_elems (pose_value t st)).
  assert (L1 : (st ++ [e]) !! length st = Some e)
    by (by apply list_lookup_middle).
  assert (L2 : ((st ++ [e]) ++ [e]) !! length st = Some e).
  { rewrite lookup_app_l; [done|]. rewrite length_app. simpl. lia. }
  assert (L3 : ((st ++ [e]) ++ [e]) !! length (st ++ [e]) = Some e)
    by (by apply list_lookup_middle).
  rewrite (load_at _ _ _ _ _ L1), (load_at _ _ _ _ _ L2),
    (load_at _ _ _ _ _ L3).
  assert (Hne : Some (length st) <> Some (length (st ++ [e]))).
  { rewrite length_app. simpl. intros [= Heq]. lia. }
  split; [done|]. split; [done|]. split; [done|]. split.
  - split; intros; apply load_put_other; simpl; [done | by apply not_eq_sym].
  - rewrite !length_app. simpl. lia.
Qed.

Lemma getModelViewMatrix_twice_witness :
  let r1 := getModelViewMatrix posed pose_store in
  let r2 := getModelViewMatrix (snd (fst r1)) (snd r1) in
  load (snd r2) (fst (fst r2)) = load (snd r2) (fst (fst r1)) /\
  load (snd r2) (fst (fst r1)) = load (snd r1) (fst (fst r1)) /\
  data (fst (fst r1)) <> data (fst (fst r2)) /\
  detached (snd r2) (fst (fst r1)) (fst (fst r2)) /\
  length (snd r2) = S (S (length pose_store)).
Proof.
  apply (getModelViewMatrix_twice posed pose_store).
  unfold valid. simpl. lia.
Defined.

(** A caller may overwrite the matrix it was given: the next call of
    [getModelViewMatrix] still returns the pose as the first call returned
    it. *)
Lemma getModelViewMatrix_after_write (t : Tracker) (st : store) (i j : Z)
    (x : spec_float) :
  valid st (modelViewMatrix t) ->
  let r1 := getModelViewMatrix t st in
  let r2 := getModelViewMatrix t (put (fst (fst r1)) i j x (snd r1)) in
  load (snd r2) (fst (fst r2)) = load (snd r1) (fst (fst r1)) /\
  snd (fst r2) = t.
Proof.
  intros Hv. cbv zeta.
  rewrite (getModelViewMatrix_alloc t st). cbn [fst snd].
  set (m1 := mkMat _ _ (Some (length st))).
  set (st1 := st ++ _).
  rewrite (getModelViewMatrix_alloc t (put m1 i j x st1)). cbn [fst snd].
  assert (Hp : pose_value t (put m1 i j x st1) = pose_value t st).
  { unfold pose_value. destruct (empty (modelViewMatrix t)); [done|].
    rewrite load_put_other.
    - apply load_alloc_old, Hv.
    - subst m1. simpl. unfold valid in Hv.
      destruct (data (modelViewMatrix t)); [|done]. intros [= Heq]. lia. }
  rewrite Hp. split; [|done].
  rewrite (load_at _ _ _ _ (m_elems (pose_value t st)))
    by (by apply list_lookup_middle).
  subst m1 st1.
  by rewrite (load_at _ _ _ _ (m_elems (pose_value t st)))
    by (by apply list_lookup_middle).
Qed.

Lemma getModelViewMatrix_after_write_witness :
  let r1 := getModelViewMatrix posed pose_store in
  let r2 := getModelViewMatrix posed (put (fst (fst r1)) 0 3 f0 (snd r1)) in
  load (snd r2) (fst (fst r2)) = load (snd r1) (fst (fst r1)) /\
  snd (fst r2) = posed.
Proof.
  apply (getModelViewMatrix_after_write posed pose_store 0 3 f0).
  unfold valid. simpl. lia.
Defined.

(** Only the frame handed over last is kept: a frame that was not yet
    processed is overwritten, not queued; and handing a frame over changes
    neither the tracking flags, nor the tracked features, nor the pose. *)
Lemma setToProcessFrame_latest (f g : Mat) (t : Tracker) :
  setToProcessFrame g (setToProcessFrame f t) = setToProcessFrame g t /\
  isTracking (setToProcessFrame f t) = isTracking t /\
  getTrackedFeatures (setToProcessFrame f t) = getTrackedFeatures t /\
  (forall st,
     fst (fst (getModelViewMatrix (setToProcessFrame f t) st)) =
     fst (fst (getModelViewMatrix t st)) /\
     snd (getModelViewMatrix (setToProcessFrame f t) st) =
     snd (getModelViewMatrix t st)).
Proof.
  repeat split; try reflexivity;
    rewrite !getModelViewMatrix_alloc; reflexivity.
Qed.

(** [MarkerDetector::setTraining] keeps the caller's header, not a copy of
    the matrix: an element the caller writes afterwards is what
    [getTraining] reads, while the labels stay as they were. *)
Lemma setTraining_shares_buffer
    (m : Mat) (d : MarkerDetector) (st : store) (i j : Z) (x : spec_float)
    (a k : nat) :
  data m = Some a -> (a < length st)%nat ->
  elem_index m i j = Some k -> (k < length (buffer_of st m))%nat ->
  get (getTraining (setTraining m d)) i j (put m i j x st) = Some x /\
  getTrainingLabels (setTraining m d) = getTrainingLabels d.
Proof.
  intros Ha Hlt Hk Hlen. split; [|done].
  change (getTraining (setTraining m d)) with m.
  by apply (get_put_same m st i j x a k).
Qed.

Lemma setTraining_shares_buffer_witness :
  get (getTraining (setTraining frame4 trained)) 0 1
      (put frame4 0 1 f0 trained_store) = Some f0 /\
  getTrainingLabels (setTraining frame4 trained) = getTrainingLabels trained.
Proof.
  apply (setTraining_shares_buffer frame4 trained trained_store 0 1 f0
           1%nat 1%nat); [reflexivity | simpl; lia | reflexivity | simpl; lia].
Defined.

(** ** Histories of inline calls *)

(** What one inline call does to the pose header, the flags and the
    store. *)
Lemma iexec_step (t : Tracker) (st : store) (c : icall) :
  modelViewMatrix (fst (iexec (t, st) c)) = modelViewMatrix t /\
  (isTracking t = true -> isTracking (fst (iexec (t, st) c)) = true) /\
  snd (iexec (t, st) c) =
    (if is_getter c then st ++ [m_elems (pose_value t st)] else st).
Proof.
  destruct c; simpl; try done.
  rewrite getModelViewMatrix_alloc. done.
Qed.

Lemma iexec_extends (t : Tracker) (st : store) (c : icall) :
  extends st (snd (iexec (t, st) c)).
Proof.
  destruct (iexec_step t st c) as (_ & _ & ->).
  destruct (is_getter c); [by eexists | apply extends_refl].
Qed.

Lemma irun_cons (c : icall) (cs : list icall) (w : Tracker * store) :
  irun (c :: cs) w = irun cs (iexec w c).
Proof. reflexivity. Qed.

Lemma irun_tracking (cs : list icall) (t : Tracker) (st : store) :
  isTracking t = true -> isTracking (fst (irun cs (t, st))) = true.
Proof.
  revert t st. induction cs as [|c cs IH]; intros t st Ht; [done|].
  rewrite irun_cons.
  destruct (iexec_step t st c) as (_ & Hk & _).
  destruct (iexec (t, st) c) as [t1 st1]. apply IH. by apply Hk.
Qed.

(** No inline member ever clears a tracking flag: once [isTracking] is
    true, or once [reset] has been called, [isTracking] stays true through
    every further call of an inline member. *)
Lemma inline_calls_keep_tracking (cs : list icall) (t : Tracker) (st : store) :
  isTracking t = true \/ IReset ∈ cs ->
  isTracking (fst (irun cs (t, st))) = true.
Proof.
  intros [Ht | Hin]; [by apply irun_tracking|].
  revert t st. induction cs as [|c cs IH]; intros t st.
  { by apply elem_of_nil in Hin. }
  rewrite irun_cons. apply elem_of_cons in Hin as [<- | Hin].
  - simpl iexec. by apply irun_tracking.
  - destruct (iexec (t, st) c) as [t1 st1]. by apply IH.
Qed.

Lemma inline_calls_keep_tracking_witness :
  isTracking
    (fst (irun [ISetDebug true; IReset; ISetToProcessFrame frame4;
                IGetModelViewMatrix; ISetDebug false]
               (blank, frame_store))) = true.
Proof.
  apply (inline_calls_keep_tracking _ blank frame_store).
  right. right. left.
Defined.

Lemma irun_store (cs : list icall) (t : Tracker) (st : store) :
  length (snd (irun cs (t, st))) = (length st + getter_calls cs)%nat /\
  extends st (snd (irun cs (t, st))).
Proof.
  revert t st. induction cs as [|c cs IH]; intros t st.
  { unfold getter_calls. simpl. split; [lia | apply extends_refl]. }
  rewrite irun_cons.
  pose proof (iexec_extends t st c) as He.
  destruct (iexec_step t st c) as (_ & _ & Hs).
  destruct (iexec (t, st) c) as [t1 st1]. cbn [fst snd] in *.
  destruct (IH t1 st1) as (Hl & He1).
  split; [|exact (extends_trans _ _ _ He He1)].
  rewrite Hl, Hs. unfold getter_calls. simpl.
  destruct (is_getter c); simpl; [|done].
  rewrite length_app. simpl. lia.
Qed.

(** No inline member writes the pose: after any history of inline calls
    [modelViewMatrix] is the same header with the same elements, and
    [getModelViewMatrix] returns the matrix it would have returned
    before. *)
Lemma inline_calls_keep_pose (cs : list icall) (t : Tracker) (st : store) :
  valid st (modelViewMatrix t) ->
  let w := irun cs (t, st) in
  modelViewMatrix (fst w) = modelViewMatrix t /\
  load (snd w) (modelViewMatrix (fst w)) = load st (modelViewMatrix t) /\
  load (snd (getModelViewMatrix (fst w) (snd w)))
       (fst (fst (getModelViewMatrix (fst w) (snd w)))) =
  load (snd (getModelViewMatrix t st)) (fst (fst (getModelViewMatrix t st))).
Proof.
  intros Hv. cbv zeta.
  assert (Hm : modelViewMatrix (fst (irun cs (t, st))) = modelViewMatrix t).
  { revert t st Hv. induction cs as [|c cs IH]; intros t st Hv; [done|].
    rewrite irun_cons.
    pose proof (iexec_extends t st c) as He.
    destruct (iexec_step t st c) as (Hmv & _ & _).
    destruct (iexec (t, st) c) as [t1 st1]. cbn [fst snd] in *.
    rewrite <- Hmv. apply IH. rewrite Hmv. by apply (valid_extends st). }
  destruct (irun_store cs t st) as (_ & He).
  assert (Hload : load (snd (irun cs (t, st)))
                       (modelViewMatrix (fst (irun cs (t, st))))
                  = load st (modelViewMatrix t))
    by (rewrite Hm; by apply load_extends).
  split; [done|]. split; [done|].
  rewrite !getModelViewMatrix_alloc. cbn [fst snd].
  assert (Hp : pose_value (fst (irun cs (t, st))) (snd (irun cs (t, st)))
               = pose_value t st).
  { unfold pose_value. by rewrite Hload, Hm. }
  rewrite Hp.
  rewrite (load_at _ _ _ _ (m_elems (pose_value t st)))
    by (by apply list_lookup_middle).
  by rewrite (load_at _ _ _ _ (m_elems (pose_value t st)))
    by (by apply list_lookup_middle).
Qed.

Lemma inline_calls_keep_pose_witness :
  let w := irun [IGetModelViewMatrix; IReset; ISetToProcessFrame frame4;
                 ISetDebug true] (posed, pose_store) in
  modelViewMatrix (fst w) = modelViewMatrix posed /\
  load (snd w) (modelViewMatrix (fst w))
  = load pose_store (modelViewMatrix posed) /\
  load (snd (getModelViewMatrix (fst w) (snd w)))
       (fst (fst (getModelViewMatrix (fst w) (snd w)))) =
  load (snd (getModelViewMatrix posed pose_store))
       (fst (fst (getModelViewMatrix posed pose_store))).
Proof.
  apply (inline_calls_keep_pose _ posed pose_store).
  unfold valid. simpl. lia.
Defined.

End InlineFacts.
